(** * todo-api: the task handlers of [app.py] over an explicit store

    [app.py] is a Flask application whose handlers read the parsed JSON
    body of the request and read or write one SQLite table, [tarea],
    through SQLAlchemy.  The development below embeds

    - the parsed request body as a value of type [json], its strings as
      sequences of code points;
    - the Python operations the handlers apply to it ([not], [in],
      subscription, [dict.get], [str.strip]) with the exceptions they
      raise;
    - the table as a finite map from the primary key to the row, with
      what SQLite and the column types do when a row is written: the key
      an insert gets, the values the Boolean column refuses, the texts
      the driver cannot encode, the integers it cannot bind;
    - each handler as a function from the store to the new store and the
      response, the [try ... except Exception] of the handler turning every
      raised exception into [db.session.rollback()] and a 500 response. *)

From Stdlib Require Import ZArith QArith Ascii String List Sorted Lia.
From stdpp Require Import base option gmap strings list fin_maps.

Local Open Scope string_scope.
Local Open Scope list_scope.
Local Open Scope Z_scope.

(** ** Texts and [str.strip] *)

(** A Python [str] is the sequence of its code points.  A literal of
    this file, a [string], is read as the text of its characters, code
    points below 256. *)
Definition text : Type := list N.

Definition text_of_string (s : string) : text :=
  N_of_ascii <$> list_ascii_of_string s.
Coercion text_of_string : string >-> text.

(** [str.isspace] of one code point: TAB to CR, FS to US, SPACE, NEL,
    NBSP, U+1680, U+2000 to U+200A, U+2028, U+2029, U+202F, U+205F and
    U+3000. *)
Definition is_space (c : N) : bool :=
  (((9 <=? c) && (c <=? 13))
   || ((28 <=? c) && (c <=? 32))
   || (c =? 133)
   || (c =? 160)
   || (c =? 5760)
   || ((8192 <=? c) && (c <=? 8202))
   || (c =? 8232)
   || (c =? 8233)
   || (c =? 8239)
   || (c =? 8287)
   || (c =? 12288))%N.

Fixpoint lstrip (s : text) : text :=
  match s with
  | [] => []
  | c :: s' => if is_space c then lstrip s' else s
  end.

Fixpoint rstrip (s : text) : text :=
  match s with
  | [] => []
  | c :: s' =>
      match rstrip s' with
      | [] => if is_space c then [] else [c]
      | r => c :: r
      end
  end.

(** [s.strip()] *)
Definition strip (s : text) : text := rstrip (lstrip s).

(** [not s] for a text: it is empty. *)
Definition vacio (s : text) : bool :=
  match s with
  | [] => true
  | _ :: _ => false
  end.

(** [needle in s] for two texts: [needle] occurs in [s]. *)
Fixpoint is_prefix (p s : text) : bool :=
  match p, s with
  | [], _ => true
  | a :: p', b :: s' => if (a =? b)%N then is_prefix p' s' else false
  | _ :: _, [] => false
  end.

Fixpoint is_substring (p s : text) : bool :=
  is_prefix p s
  || match s with
     | [] => false
     | _ :: s' => is_substring p s'
     end.

(** A surrogate code point, U+D800 to U+DFFF.  The JSON parser joins a
    well-formed pair into one code point and leaves a lone surrogate in
    the text; the SQLite driver cannot encode such a text as UTF-8 and
    raises when it is bound as a parameter. *)
Definition es_surrogate (c : N) : bool := ((55296 <=? c) && (c <=? 57343))%N.

Definition utf8_ok (s : text) : bool := forallb (fun c => negb (es_surrogate c)) s.

(** ** Parsed JSON bodies *)

(** What [request.json] evaluates to: [None], a [bool], an [int], a
    [float] (carried as the rational it denotes; the handlers only ask
    whether it equals 0 or 1), a [str], a [list] or a [dict] with string
    keys. *)
#[local] Unset Elimination Schemes.
Inductive json : Type :=
| JNull
| JBool (b : bool)
| JInt (z : Z)
| JFloat (q : Q)
| JStr (s : text)
| JArr (l : list json)
| JObj (m : gmap string json).
#[local] Set Elimination Schemes.

(** ** Exceptions *)

(** The exceptions the handlers can raise, each with the value it was
    raised on.  [str(e)] of the exception is what the 500 response
    carries. *)
Inductive exn : Type :=
| TypeError (v : json)                      (* [x in v], [v[k]] on a wrong type *)
| AttributeError (v : json) (attr : string) (* [v.attr] on a value without it *)
| KeyError (k : string)                     (* [d[k]] on a dict without [k] *)
| StatementError (v : json)                 (* a bound parameter the column type refuses *)
| UnicodeEncodeError (s : text)             (* a bound text UTF-8 cannot encode *)
| OverflowError (z : Z).                    (* a bound integer beyond the INTEGER range *)

Inductive result (A : Type) : Type :=
| Ok (a : A)
| Raise (e : exn).
Arguments Ok {A} a.
Arguments Raise {A} e.

#[global] Instance result_ret : MRet result := fun A a => Ok a.
#[global] Instance result_bind : MBind result := fun A B f r =>
  match r with
  | Ok a => f a
  | Raise e => Raise e
  end.

(** ** The Python operations on the body *)

(** [bool(v)], as [not datos] tests it. *)
Definition py_truthy (v : json) : bool :=
  match v with
  | JNull => false
  | JBool b => b
  | JInt z => negb (z =? 0)
  | JFloat q => negb (Qeq_bool q 0)
  | JStr s => negb (vacio s)
  | JArr l => negb (Nat.eqb (length l) 0)
  | JObj m => negb (Nat.eqb (size m) 0)
  end.

Definition is_str (k : string) (v : json) : bool :=
  match v with
  | JStr s => bool_decide (text_of_string k = s)
  | _ => false
  end.

(** [k in v] for a string [k]: a key of a dict, an element of a list, a
    substring of a string; anything else is not iterable. *)
Definition py_contains (k : string) (v : json) : result bool :=
  match v with
  | JObj m => Ok (bool_decide (is_Some (m !! k)))
  | JArr l => Ok (existsb (is_str k) l)
  | JStr s => Ok (is_substring k s)
  | _ => Raise (TypeError v)
  end.

(** [v[k]] for a string [k]. *)
Definition py_getitem (v : json) (k : string) : result json :=
  match v with
  | JObj m =>
      match m !! k with
      | Some x => Ok x
      | None => Raise (KeyError k)
      end
  | _ => Raise (TypeError v)
  end.

(** [v.get(k, d)] *)
Definition py_get (v : json) (k : string) (d : json) : result json :=
  match v with
  | JObj m => Ok (default d (m !! k))
  | _ => Raise (AttributeError v "get")
  end.

(** [v.strip()] *)
Definition py_strip (v : json) : result text :=
  match v with
  | JStr s => Ok (strip s)
  | _ => Raise (AttributeError v "strip")
  end.

(** ** The table [tarea] *)

(** A row: [id] is the INTEGER primary key, [completada] a nullable
    BOOLEAN, [fecha_creacion] the DATETIME the insert stamps. *)
Module Tarea.
Record t : Type := mk {
  id : Z;
  texto : text;
  completada : option bool;
  fecha_creacion : Z;
}.
End Tarea.

(** The table, indexed by its primary key. *)
Abbreviation Store := (gmap Z Tarea.t).

(** The dict [to_dict] builds.  ['fecha_creacion'] is the ISO text of the
    timestamp and is carried as the timestamp. *)
Record TareaDict : Type := {
  d_id : Z;
  d_texto : text;
  d_completada : option bool;
  d_fecha_creacion : Z;
}.

Definition to_dict (self : Tarea.t) : TareaDict :=
  {| d_id := Tarea.id self;
     d_texto := Tarea.texto self;
     d_completada := Tarea.completada self;
     d_fecha_creacion := Tarea.fecha_creacion self |}.

(** The greatest primary key in use. *)
Definition max_rowid (s : Store) : option Z :=
  map_fold (fun i _ acc =>
              Some (match acc with
                    | None => i
                    | Some m => Z.max i m
                    end)) None s.

(** The key an insert without an explicit id gets.  The column is
    [db.Integer, primary_key=True] with no autoincrement option, so on
    SQLite it is the rowid: 1 in an empty table, otherwise one more than
    the greatest key in use. *)
Definition next_rowid (s : Store) : Z :=
  match max_rowid s with
  | None => 1
  | Some m => m + 1
  end.

(** What the Boolean column makes of a bound value: [None] is NULL, a
    value equal to [True] or [False] is stored as such, anything else is
    refused when the statement is flushed. *)
Definition boolean_bind (v : json) : result (option bool) :=
  match v with
  | JNull => Ok None
  | JBool b => Ok (Some b)
  | JInt z =>
      if z =? 0 then Ok (Some false)
      else if z =? 1 then Ok (Some true)
      else Raise (StatementError v)
  | JFloat q =>
      if Qeq_bool q 0 then Ok (Some false)
      else if Qeq_bool q 1 then Ok (Some true)
      else Raise (StatementError v)
  | _ => Raise (StatementError v)
  end.

(** What the driver makes of a bound text: it is encoded as UTF-8, and
    refused when it holds a surrogate. *)
Definition text_bind (s : text) : result text :=
  if utf8_ok s then Ok s else Raise (UnicodeEncodeError s).

(** [Tarea(texto=..., completada=...)], [db.session.add], [db.session.commit]:
    a [completada] of [None] is left out of the INSERT, so the column
    default [False] applies to it; [fecha_creacion] is the clock [now].
    The parameters are bound when the INSERT is flushed: the Boolean
    type checks its value first, the driver encodes the text next. *)
Definition db_insert (now : Z) (texto : text) (completada : json) (s : Store)
  : result (Tarea.t * Store) :=
  c ← boolean_bind completada;
  texto ← text_bind texto;
  let nueva_tarea :=
    Tarea.mk (next_rowid s) texto (Some (default false c)) now in
  Ok (nueva_tarea, <[next_rowid s := nueva_tarea]> s).

(** The commit of an update of the row [id] holding [tarea]: the
    attributes that were assigned are bound and written, the others
    kept. *)
Definition db_update (id : Z) (tarea : Tarea.t)
    (texto : option text) (completada : option json) (s : Store)
  : result (Tarea.t * Store) :=
  c ← match completada with
      | None => Ok (Tarea.completada tarea)
      | Some v => boolean_bind v
      end;
  texto ← match texto with
          | None => Ok (Tarea.texto tarea)
          | Some x => text_bind x
          end;
  let tarea' :=
    Tarea.mk (Tarea.id tarea) texto c (Tarea.fecha_creacion tarea) in
  Ok (tarea', <[id := tarea']> s).

(** ** Responses *)

Inductive ErrMsg : Type :=
| FaltaTexto          (* "Falta el campo 'texto'" *)
| TextoVacio          (* "El texto no puede estar vacio" *)
| NoEncontrada        (* "Tarea no encontrada" *)
| ErrExc (e : exn).   (* str(e) *)

Inductive Body : Type :=
| BTarea (d : TareaDict)                       (* jsonify(tarea.to_dict()) *)
| BTareas (l : list TareaDict)                 (* jsonify([...]) *)
| BError (m : ErrMsg)                          (* jsonify({"error": m}) *)
| BMensaje                                     (* {"mensaje": "Tarea eliminada correctamente"} *)
| BStats (total completadas pendientes : Z).   (* the statistics dict *)

(** The pair [jsonify(...), status] a handler returns. *)
Definition Response : Type := Body * Z.

(** [try: body except Exception as e: db.session.rollback(); return
    jsonify({"error": str(e)}), 500]: the store is the one the request
    started with. *)
Definition try_except (s : Store) (body : result (Store * Response))
  : Store * Response :=
  match body with
  | Ok r => r
  | Raise e => (s, (BError (ErrExc e), 500))
  end.

(** ** The handlers *)

(** GET /api/tareas: the dicts of all the rows, in the order the table
    enumerates them. *)
Definition obtener_tareas (s : Store) : Store * Response :=
  (s, (BTareas (to_dict <$> (map_to_list s).*2), 200)).

(** GET /api/tareas/<id>, for an [id] the INTEGER column holds (see
    [obtener_tarea_ruta] for the others). *)
Definition obtener_tarea (id : Z) (s : Store) : Store * Response :=
  match s !! id with
  | None => (s, (BError NoEncontrada, 404))
  | Some tarea => (s, (BTarea (to_dict tarea), 200))
  end.

(** POST /api/tareas, [datos] the parsed body and [now] the clock. *)
Definition crear_tarea (now : Z) (datos : json) (s : Store) : Store * Response :=
  try_except s (
    if negb (py_truthy datos) then Ok (s, (BError FaltaTexto, 400)) else
    has_texto ← py_contains "texto" datos;
    if negb has_texto then Ok (s, (BError FaltaTexto, 400)) else
    v ← py_getitem datos "texto";
    stripped ← py_strip v;
    if vacio stripped then Ok (s, (BError TextoVacio, 400)) else
    v ← py_getitem datos "texto";
    texto ← py_strip v;
    completada ← py_get datos "completada" (JBool false);
    '(nueva_tarea, s') ← db_insert now texto completada s;
    Ok (s', (BTarea (to_dict nueva_tarea), 201))).

(** PUT /api/tareas/<id>, for an [id] the INTEGER column holds (see
    [actualizar_tarea_ruta] for the others). *)
Definition actualizar_tarea (id : Z) (datos : json) (s : Store) : Store * Response :=
  try_except s (
    match s !! id with
    | None => Ok (s, (BError NoEncontrada, 404))
    | Some tarea =>
        has_texto ← py_contains "texto" datos;
        texto ← (if has_texto : bool
                 then v ← py_getitem datos "texto";
                      stripped ← py_strip v;
                      Ok (Some stripped)
                 else Ok None);
        has_completada ← py_contains "completada" datos;
        completada ← (if has_completada : bool
                      then v ← py_getitem datos "completada"; Ok (Some v)
                      else Ok None);
        '(tarea', s') ← db_update id tarea texto completada s;
        Ok (s', (BTarea (to_dict tarea'), 200))
    end).

(** DELETE /api/tareas/<id>, for an [id] the INTEGER column holds (see
    [eliminar_tarea_ruta] for the others). *)
Definition eliminar_tarea (id : Z) (s : Store) : Store * Response :=
  match s !! id with
  | None => (s, (BError NoEncontrada, 404))
  | Some _ => (delete id s, (BMensaje, 200))
  end.

(** GET /api/estadisticas: [filter_by(completada=True)] selects the rows
    whose flag is true; a NULL flag is not. *)
Definition es_completada (t : Tarea.t) : Prop := Tarea.completada t = Some true.

#[global] Instance es_completada_dec t : Decision (es_completada t).
Proof. unfold es_completada. apply _. Defined.

Definition obtener_estadisticas (s : Store) : Store * Response :=
  let total := Z.of_nat (size s) in
  let completadas := Z.of_nat (size (filter (fun kt => es_completada kt.2) s)) in
  let pendientes := total - completadas in
  (s, (BStats total completadas pendientes, 200)).

(** ** The handlers on every id of the route *)





(** ** Requests and runs *)

(** The requests to the API whose id, if they have one, is an integer
    the INTEGER column holds (the others are served by the handlers
    [_ruta] above); [now] is [datetime.utcnow()] at the insert. *)
Inductive Request : Type :=
| GetTareas
| GetTarea (id : Z)
| PostTarea (now : Z) (datos : json)
| PutTarea (id : Z) (datos : json)
| DeleteTarea (id : Z)
| GetEstadisticas.

Definition handle (r : Request) (s : Store) : Store * Response :=
  match r with
  | GetTareas => obtener_tareas s
  | GetTarea id => obtener_tarea id s
  | PostTarea now datos => crear_tarea now datos s
  | PutTarea id datos => actualizar_tarea id datos s
  | DeleteTarea id => eliminar_tarea id s
  | GetEstadisticas => obtener_estadisticas s
  end.

(** The requests served one after the other: the final store and the
    responses in order. *)
Fixpoint run (rs : list Request) (s : Store) : Store * list Response :=
  match rs with
  | [] => (s, [])
  | r :: rs' =>
      let '(s1, resp) := handle r s in
      let '(s2, resps) := run rs' s1 in
      (s2, resp :: resps)
  end.

(** The ids the 201 responses of a run announce, in order. *)
Fixpoint created_ids (resps : list Response) : list Z :=
  match resps with
  | [] => []
  | (BTarea d, 201) :: resps' => d_id d :: created_ids resps'
  | _ :: resps' => created_ids resps'
  end.

(** The body [{"texto": texto}]. *)
Definition cuerpo (texto : string) : json := JObj {[ "texto" := JStr texto ]}.

(** ** Predicates and request lists used in the statements *)

(** The fields the body of a PUT assigns, as [actualizar_tarea] reads
    them before the commit. *)
Definition put_fields (datos : json) : result (option text * option json) :=
  has_texto ← py_contains "texto" datos;
  texto ← (if has_texto : bool
           then v ← py_getitem datos "texto";
                stripped ← py_strip v;
                Ok (Some stripped)
           else Ok None);
  has_completada ← py_contains "completada" datos;
  completada ← (if has_completada : bool
                then v ← py_getitem datos "completada"; Ok (Some v)
                else Ok None);
  Ok (texto, completada).

(** The body has no key 'texto': it is not an object that has it. *)
Definition carece_de_texto (datos : json) : Prop :=
  ∀ m, datos = JObj m → m !! "texto" = None.

(** The body is an object whose 'texto' is a string that strips to the
    empty string. *)
Definition texto_en_blanco (datos : json) : Prop :=
  ∃ m t, datos = JObj m ∧ m !! "texto" = Some (JStr t) ∧ strip t = "".

(** The bodies that are not objects and on which [crear_tarea] raises:
    [True] and the numbers other than 0, which ['texto' in datos] cannot
    search; the strings in which 'texto' occurs and the lists of which
    it is an element, which [datos['texto']] cannot subscript. *)
Definition cuerpo_lanza (datos : json) : bool :=
  match datos with
  | JObj _ => false
  | _ =>
      py_truthy datos
      && match py_contains "texto" datos with
         | Ok false => false
         | _ => true
         end
  end.

(** Every stored id is positive. *)
Definition ids_positivos (s : Store) : Prop := ∀ i, is_Some (s !! i) → 0 < i.

(** The body [{"texto": "\ud800"}]: a text of one lone surrogate. *)
Definition cuerpo_surrogate : json := JObj {[ "texto" := JStr [55296%N] ]}.

(** The body [{"texto": "Buy milk", "completada": "si"}]. *)
Definition cuerpo_si : json :=
  JObj (<["completada" := JStr "si"]> {[ "texto" := JStr "Buy milk" ]}).

(** The requests that create or delete. *)
Definition es_post_o_delete (r : Request) : Prop :=
  match r with
  | PostTarea _ _ | DeleteTarea _ => True
  | _ => False
  end.

(** No DELETE of the run removes the task that has the greatest id at
    the moment it is served. *)
Fixpoint sin_delete_del_mayor (rs : list Request) (s : Store) : Prop :=
  match rs with
  | [] => True
  | r :: rs' =>
      match r with
      | DeleteTarea id => max_rowid s ≠ Some id
      | _ => True
      end
      ∧ sin_delete_del_mayor rs' (handle r s).1
  end.

(** The requests other than DELETE. *)
Definition sin_delete (r : Request) : Prop :=
  match r with
  | DeleteTarea _ => False
  | _ => True
  end.

(** The strings [lstrip] returns: empty, or starting with a character
    that is not whitespace. *)
Definition empieza_sin_espacio (s : text) : Prop :=
  match s with
  | [] => True
  | c :: _ => is_space c = false
  end.

(** Every stored texto is non-empty after stripping. *)
Definition texto_no_vacio (s : Store) : Prop :=
  ∀ i t, s !! i = Some t → strip (Tarea.texto t) ≠ "".

(** The body [{"completada": b}]. *)
Definition cuerpo_completada (b : bool) : json := JObj {[ "completada" := JBool b ]}.

(** The POSTs that create the tasks of the given clock and text, and the
    PUTs that mark the tasks of the given ids completed. *)
Definition crear (posts : list (Z * string)) : list Request :=
  (fun p => PostTarea p.1 (cuerpo p.2)) <$> posts.

Definition marcar (ids : list Z) : list Request :=
  (fun i => PutTarea i (cuerpo_completada true)) <$> ids.

(** The stores whose ids are 1 to [n] and whose tasks are all pending. *)
Definition recien_creadas (n : nat) (s : Store) : Prop :=
  (∀ i, is_Some (s !! i) ↔ 1 ≤ i ≤ Z.of_nat n)
  ∧ size s = n
  ∧ ∀ i t, s !! i = Some t → Tarea.completada t = Some false.

(** ** What one request does to the table *)

(** The four things a handler does to the table: nothing; the insert of
    a row under the next key, its texto a stripped non-blank text; the
    replacement of a stored row by one with the same id and
    fecha_creacion, its texto kept or a stripped text; the deletion of a
    key. *)
Inductive paso (s : Store) : Store → Prop :=
| paso_nada : paso s s
| paso_insert nueva t :
    Tarea.id nueva = next_rowid s →
    Tarea.texto nueva = strip t →
    strip t ≠ "" →
    paso s (<[next_rowid s := nueva]> s)
| paso_update id tarea tarea' :
    s !! id = Some tarea →
    Tarea.id tarea' = Tarea.id tarea →
    Tarea.fecha_creacion tarea' = Tarea.fecha_creacion tarea →
    (Tarea.texto tarea' = Tarea.texto tarea ∨ ∃ t, Tarea.texto tarea' = strip t) →
    paso s (<[id := tarea']> s)
| paso_delete id : paso s (delete id s).

(** Every row is stored under its own id. *)
Definition id_es_clave (s : Store) : Prop :=
  ∀ i t, s !! i = Some t → Tarea.id t = i.

(** Every stored texto is in stripped form. *)
Definition texto_recortado (s : Store) : Prop :=
  ∀ i t, s !! i = Some t → strip (Tarea.texto t) = Tarea.texto t.

(** The bodies [in] cannot search: [None], a [bool], an [int], a
    [float]. *)
Definition no_iterable (v : json) : Prop :=
  match v with
  | JNull | JBool _ | JInt _ | JFloat _ => True
  | _ => False
  end.

(** The number of deletions a run confirmed: its responses
    ["Tarea eliminada correctamente", 200]. *)
Fixpoint deleted_count (resps : list Response) : nat :=
  match resps with
  | [] => 0%nat
  | (BMensaje, 200) :: resps' => S (deleted_count resps')
  | _ :: resps' => deleted_count resps'
  end.

(** The stores whose ids are exactly 1 to [n]. *)
Definition ids_hasta (n : nat) (s : Store) : Prop :=
  ∀ i, is_Some (s !! i) ↔ 1 ≤ i ≤ Z.of_nat n.

(** The PUTs whose body is an object with a blank string as 'texto'. *)
Definition put_en_blanco (r : Request) : Prop :=
  match r with
  | PutTarea _ (JObj m) =>
      match m !! "texto" with
      | Some (JStr t) => strip t = ""
      | _ => False
      end
  | _ => False
  end.

(** The row a PUT with the body [datos] puts in the place of [tarea],
    if it commits. *)
Definition fila_actualizada (datos : json) (tarea : Tarea.t) : option Tarea.t :=
  match put_fields datos with
  | Ok (texto, completada) =>
      match db_update 0 tarea texto completada ∅ with
      | Ok (tarea', _) => Some tarea'
      | Raise _ => None
      end
  | Raise _ => None
  end.

(** * Properties *)

Example strip_ex : strip "  Buy milk  " = "Buy milk".
Proof. reflexivity. Qed.

Example run_ex :
  created_ids (run [PostTarea 0 (cuerpo "a"); PostTarea 1 (cuerpo "b");
                    DeleteTarea 1; PostTarea 2 (cuerpo "c")] ∅).2 = [1; 2; 3].
Proof. by vm_compute. Qed.

(** ** The greatest key and the next one *)

Lemma max_rowid_spec (s : Store) :
  match max_rowid s with
  | None => s = ∅
  | Some m => is_Some (s !! m) ∧ ∀ i, is_Some (s !! i) → i ≤ m
  end.
Proof.
  unfold max_rowid.
  apply (map_fold_weak_ind (fun r (s : Store) =>
    match r with
    | None => s = ∅
    | Some m => is_Some (s !! m) ∧ ∀ i, is_Some (s !! i) → i ≤ m
    end)); [done|].
  intros i x m r Hi IH. destruct r as [m0|].
  - destruct IH as [Hm0 Hle]. split.
    + destruct (Z.max_spec i m0) as [[_ ->]|[_ ->]].
      * rewrite lookup_insert_is_Some. destruct (decide (i = m0)); auto.
      * rewrite lookup_insert_eq. eauto.
    + intros j. rewrite lookup_insert_is_Some. intros [<-|[_ Hj]]; [lia|].
      specialize (Hle _ Hj). lia.
  - subst m. split.
    + rewrite lookup_insert_eq. eauto.
    + intros j. rewrite lookup_insert_is_Some, lookup_empty.
      intros [<-|[_ [? ?]]]; [lia|done].
Qed.

Lemma next_rowid_gt (s : Store) i : is_Some (s !! i) → i < next_rowid s.
Proof.
  intros Hi. unfold next_rowid. pose proof (max_rowid_spec s) as H.
  destruct (max_rowid s) as [m|].
  - destruct H as [_ H]. specialize (H _ Hi). lia.
  - subst s. rewrite lookup_empty in Hi. by destruct Hi.
Qed.

Lemma next_rowid_fresh (s : Store) : s !! next_rowid s = None.
Proof.
  destruct (s !! next_rowid s) eqn:E; [|done].
  assert (next_rowid s < next_rowid s) by (apply next_rowid_gt; eauto). lia.
Qed.

Lemma next_rowid_pos (s : Store) :
  (∀ i, is_Some (s !! i) → 0 < i) → 0 < next_rowid s.
Proof.
  intros Hpos. unfold next_rowid. pose proof (max_rowid_spec s) as H.
  destruct (max_rowid s) as [m|]; [|lia].
  destruct H as [H _]. specialize (Hpos _ H). lia.
Qed.

Lemma next_rowid_mayor (s : Store) m :
  is_Some (s !! m) → (∀ i, is_Some (s !! i) → i ≤ m) → next_rowid s = m + 1.
Proof.
  intros Hm Hle. unfold next_rowid. pose proof (max_rowid_spec s) as H.
  destruct (max_rowid s) as [m'|].
  - destruct H as [Hm' Hle']. apply Hle in Hm'. apply Hle' in Hm. lia.
  - subst s. rewrite lookup_empty in Hm. by destruct Hm.
Qed.

(** The next key depends on the set of keys only. *)
Lemma next_rowid_ext (s1 s2 : Store) :
  (∀ i, is_Some (s1 !! i) ↔ is_Some (s2 !! i)) → next_rowid s1 = next_rowid s2.
Proof.
  intros Hext. pose proof (max_rowid_spec s1) as H.
  destruct (max_rowid s1) as [m|] eqn:Hm.
  - destruct H as [Hin Hle].
    rewrite (next_rowid_mayor s1 m Hin Hle). symmetry.
    apply next_rowid_mayor; [by apply Hext|]. intros i Hi. by apply Hle, Hext.
  - subst s1. assert (s2 = ∅) as ->; [|done].
    apply map_empty. intros i. apply eq_None_not_Some. rewrite <-Hext, lookup_empty.
    by intros [? ?].
Qed.

Lemma next_rowid_insert_fresh (s : Store) x :
  next_rowid (<[next_rowid s := x]> s) = next_rowid s + 1.
Proof.
  apply next_rowid_mayor.
  - rewrite lookup_insert_eq. eauto.
  - intros i. rewrite lookup_insert_is_Some. intros [<-|[_ Hi]]; [lia|].
    apply next_rowid_gt in Hi. lia.
Qed.

Lemma next_rowid_insert_viejo (s : Store) i x :
  is_Some (s !! i) → next_rowid (<[i := x]> s) = next_rowid s.
Proof.
  intros Hi. apply next_rowid_ext. intros j. rewrite lookup_insert_is_Some.
  split; [intros [<-|[_ ?]]; done|]. intros Hj.
  destruct (decide (i = j)); auto.
Qed.

(** Deleting a key that is not the greatest leaves the next key as it
    was. *)
Lemma next_rowid_delete_no_mayor (s : Store) j :
  max_rowid s ≠ Some j → next_rowid (delete j s) = next_rowid s.
Proof.
  intros Hj. destruct (s !! j) as [t|] eqn:Hs.
  2:{ by rewrite delete_id. }
  pose proof (max_rowid_spec s) as H. destruct (max_rowid s) as [m|] eqn:Hm.
  2:{ subst s. by rewrite lookup_empty in Hs. }
  destruct H as [Hin Hle]. rewrite (next_rowid_mayor s m Hin Hle).
  apply next_rowid_mayor.
  - rewrite lookup_delete_ne; [done|]. by intros ->.
  - intros i [x Hi]. apply lookup_delete_Some in Hi as [_ Hi]. apply Hle. eauto.
Qed.

(** ** Texts UTF-8 can encode *)

Lemma is_space_no_surrogate c : is_space c = true → es_surrogate c = false.
Proof.
  intros H. unfold es_surrogate.
  destruct (N.leb_spec 55296 c) as [Hlo|]; [|done].
  destruct (N.leb_spec c 57343) as [Hhi|]; [|done].
  exfalso. unfold is_space in H.
  repeat (rewrite orb_true_iff in H || rewrite andb_true_iff in H
          || rewrite N.leb_le in H || rewrite N.eqb_eq in H).
  lia.
Qed.

Lemma utf8_ok_lstrip s : utf8_ok (lstrip s) = utf8_ok s.
Proof.
  induction s as [|c s IH]; [done|]. simpl.
  destruct (is_space c) eqn:E; [|done].
  by rewrite (is_space_no_surrogate c E).
Qed.

Lemma utf8_ok_rstrip s : utf8_ok (rstrip s) = utf8_ok s.
Proof.
  induction s as [|c s IH]; [done|]. simpl.
  destruct (rstrip s) as [|b r] eqn:Er.
  - rewrite <-IH. simpl. destruct (is_space c) eqn:E; simpl.
    + by rewrite (is_space_no_surrogate c E).
    + done.
  - by rewrite <-IH.
Qed.

(** Stripping removes whitespace only, never a surrogate. *)
Lemma utf8_ok_strip s : utf8_ok (strip s) = utf8_ok s.
Proof. unfold strip. by rewrite utf8_ok_rstrip, utf8_ok_lstrip. Qed.

(** A literal holds code points below 256: it can be encoded. *)
Lemma utf8_ok_string (s : string) : utf8_ok s = true.
Proof.
  induction s as [|a s IH]; [done|].
  change (utf8_ok (N_of_ascii a :: text_of_string s) = true). simpl.
  rewrite IH, andb_true_r. unfold es_surrogate.
  pose proof (N_ascii_bounded a).
  destruct (N.leb_spec 55296 (N_of_ascii a)); [lia|done].
Qed.

(** ** POST /api/tareas *)

Lemma truthy_obj (m : gmap string json) k v :
  m !! k = Some v → py_truthy (JObj m) = true.
Proof.
  intros Hk. simpl. destruct (size m) eqn:E; [|done].
  apply map_size_empty_iff in E. subst m. by rewrite lookup_empty in Hk.
Qed.

Lemma vacio_false (t : text) : t ≠ "" → vacio t = false.
Proof. by destruct t. Qed.

Lemma vacio_true (t : text) : vacio t = true → t = "".
Proof. by destruct t. Qed.

(** The successful path of [crear_tarea]. *)
Lemma crear_tarea_ok now (m : gmap string json) t c (s : Store) :
  m !! "texto" = Some (JStr t) →
  strip t ≠ "" →
  utf8_ok (strip t) = true →
  boolean_bind (default (JBool false) (m !! "completada")) = Ok c →
  crear_tarea now (JObj m) s =
    let nueva := Tarea.mk (next_rowid s) (strip t) (Some (default false c)) now in
    (<[next_rowid s := nueva]> s, (BTarea (to_dict nueva), 201)).
Proof.
  intros Ht Hne Hutf Hc. unfold crear_tarea.
  rewrite (truthy_obj m _ _ Ht). simpl.
  rewrite Ht. rewrite bool_decide_true by eauto. simpl.
  rewrite (vacio_false _ Hne).
  unfold db_insert, text_bind. rewrite Hc. simpl. by rewrite Hutf.
Qed.

(** Every outcome of [crear_tarea]: either the store is the one it
    started with and the status is 400 or 500, or a row was inserted
    under the next key and the status is 201. *)
Lemma crear_tarea_cases now datos (s : Store) :
  (∃ msg st, crear_tarea now datos s = (s, (BError msg, st)) ∧ (st = 400 ∨ st = 500))
  ∨ (∃ m t c,
        datos = JObj m ∧ m !! "texto" = Some (JStr t) ∧
        (strip t ≠ "" ∧ utf8_ok (strip t) = true) ∧
        boolean_bind (default (JBool false) (m !! "completada")) = Ok c ∧
        crear_tarea now datos s =
          let nueva := Tarea.mk (next_rowid s) (strip t) (Some (default false c)) now in
          (<[next_rowid s := nueva]> s, (BTarea (to_dict nueva), 201))).
Proof.
  unfold crear_tarea.
  destruct (py_truthy datos) eqn:Htr; simpl; [|left; eauto 6].
  destruct datos as [| b | z | q | str | l | m]; simpl;
    try (left; eauto 6; fail).
  - destruct (is_substring "texto" str); simpl; left; eauto 6.
  - destruct (existsb (is_str "texto") l); simpl; left; eauto 6.
  - destruct (m !! "texto") as [v|] eqn:Ht.
    2:{ rewrite bool_decide_false by (by intros [? ?]). simpl. left; eauto 6. }
    rewrite bool_decide_true by eauto. simpl.
    destruct v as [| b | z | q | t | l | m']; simpl;
      try (left; eauto 6; fail).
    destruct (vacio (strip t)) eqn:E; [left; eauto 6|].
    unfold db_insert, text_bind.
    destruct (boolean_bind (default (JBool false) (m !! "completada"))) as [c|e] eqn:Hc;
      simpl; [|left; eauto 6].
    destruct (utf8_ok (strip t)) eqn:Hutf; simpl; [|left; eauto 6].
    right. exists m, t, c. split_and!; try done.
    intros E'. by rewrite E' in E.
Qed.

(** ** PUT /api/tareas/<id> *)

Lemma actualizar_tarea_unfold id datos (s : Store) tarea :
  s !! id = Some tarea →
  actualizar_tarea id datos s =
    try_except s (
      '(texto, completada) ← put_fields datos;
      '(tarea', s') ← db_update id tarea texto completada s;
      Ok (s', (BTarea (to_dict tarea'), 200))).
Proof.
  intros Hs. unfold actualizar_tarea, put_fields. rewrite Hs.
  destruct (py_contains "texto" datos) as [[]|]; simpl; [| |done].
  - destruct (py_getitem datos "texto") as [v|]; simpl; [|done].
    destruct (py_strip v); simpl; [|done].
    destruct (py_contains "completada" datos) as [[]|]; simpl; [| |done]; [|done].
    destruct (py_getitem datos "completada"); simpl; done.
  - destruct (py_contains "completada" datos) as [[]|]; simpl; [| |done]; [|done].
    destruct (py_getitem datos "completada"); simpl; done.
Qed.

(** Every outcome of a PUT on a stored row: a 500 that leaves the store
    as it was, or a 200 that replaces the row. *)
Lemma actualizar_tarea_cases id datos (s : Store) tarea :
  s !! id = Some tarea →
  (∃ e, actualizar_tarea id datos s = (s, (BError (ErrExc e), 500)))
  ∨ (∃ texto completada c,
        put_fields datos = Ok (texto, completada) ∧
        (match completada with
         | None => Ok (Tarea.completada tarea)
         | Some v => boolean_bind v
         end = Ok c
         ∧ ∀ x, texto = Some x → utf8_ok x = true) ∧
        let tarea' := Tarea.mk (Tarea.id tarea) (default (Tarea.texto tarea) texto) c
                               (Tarea.fecha_creacion tarea) in
        actualizar_tarea id datos s = (<[id := tarea']> s, (BTarea (to_dict tarea'), 200))).
Proof.
  intros Hs. rewrite (actualizar_tarea_unfold _ _ _ _ Hs).
  destruct (put_fields datos) as [[texto completada]|e] eqn:Hf; simpl; [|left; eauto].
  unfold db_update.
  destruct (match completada with
            | None => Ok (Tarea.completada tarea)
            | Some v => boolean_bind v
            end) as [c|e] eqn:Hc; simpl; [|left; eauto].
  destruct texto as [x|]; simpl.
  - unfold text_bind. destruct (utf8_ok x) eqn:Hutf; simpl; [|left; eauto].
    right. exists (Some x), completada, c. split_and!; try done.
    by intros ? [= <-].
  - right. exists None, completada, c. done.
Qed.

(** ** Validation and lookup failures *)

(** The object bodies without a usable 'texto': an object that has no
    key 'texto', or whose 'texto' strips to the empty string, is
    answered 400 (the first with "Falta el campo 'texto'", the second
    with "El texto no puede estar vacio"), and the store is the one the
    request started with. *)
Lemma crear_tarea_objeto_400 now (m : gmap string json) (s : Store) :
  (m !! "texto" = None ∨ ∃ t, m !! "texto" = Some (JStr t) ∧ strip t = "") →
  crear_tarea now (JObj m) s =
    (s, (BError (match m !! "texto" with
                 | None => FaltaTexto
                 | Some _ => TextoVacio
                 end), 400)).
Proof.
  intros [Hnone|(t & Ht & Hblank)]; unfold crear_tarea.
  - rewrite Hnone. destruct (py_truthy (JObj m)); simpl; [|done].
    rewrite Hnone. rewrite bool_decide_false by (by intros [? ?]). done.
  - rewrite (truthy_obj m _ _ Ht). simpl. rewrite Ht.
    rewrite bool_decide_true by eauto. simpl. by rewrite Hblank.
Qed.

(** C3, as stated, fails: the body 5 has no key 'texto', and the POST is
    answered 500, not 400, because ['texto' in 5] raises. *)
Lemma crear_tarea_sin_texto_counterexample :
  ¬ (∀ now datos (s : Store),
       carece_de_texto datos ∨ texto_en_blanco datos →
       ∃ msg, crear_tarea now datos s = (s, (BError msg, 400))).
Proof.
  intros H. destruct (H 0 (JInt 5) ∅) as [msg Hmsg].
  - left. intros m Hm. discriminate Hm.
  - vm_compute in Hmsg. discriminate Hmsg.
Qed.

(** C3 (amended): a POST whose body has no key 'texto', or whose 'texto'
    is a string that strips to the empty string, leaves the store, hence
    the number of stored tasks, as it was, and is answered with an error
    body.  The status is 400 when the body is an object, when it is
    falsy (null, false, 0, the empty string, the empty list), and when
    it is a string in which 'texto' does not occur or a list of which it
    is no element; it is 500, with the message of the TypeError, for the
    other bodies: true, a number other than 0, a string in which 'texto'
    occurs, a list of which it is an element. *)
Theorem crear_tarea_sin_texto now datos (s : Store) :
  carece_de_texto datos ∨ texto_en_blanco datos →
  crear_tarea now datos s =
    (s, if cuerpo_lanza datos
        then (BError (ErrExc (TypeError datos)), 500)
        else (BError (match datos with
                      | JObj m =>
                          match m !! "texto" with
                          | None => FaltaTexto
                          | Some _ => TextoVacio
                          end
                      | _ => FaltaTexto
                      end), 400)).
Proof.
  intros [Hc|(m & t & -> & Ht & Hb)].
  - destruct datos as [| b | z | q | str | l | m].
    + done.
    + by destruct b.
    + unfold crear_tarea, cuerpo_lanza. simpl. by destruct (z =? 0).
    + unfold crear_tarea, cuerpo_lanza. simpl. by destruct (Qeq_bool q 0).
    + unfold crear_tarea, cuerpo_lanza. simpl.
      destruct (vacio str); simpl; [done|].
      by destruct (is_substring "texto" str).
    + unfold crear_tarea, cuerpo_lanza. simpl.
      destruct (length l =? 0)%nat; simpl; [done|].
      by destruct (existsb (is_str "texto") l).
    + simpl. apply crear_tarea_objeto_400. left. by apply Hc.
  - simpl. apply crear_tarea_objeto_400. eauto.
Qed.

Lemma crear_tarea_sin_texto_witness :
  crear_tarea 0 (JStr "hola") {[ 1 := Tarea.mk 1 "a" (Some false) 0 ]}
  = ({[ 1 := Tarea.mk 1 "a" (Some false) 0 ]}, (BError FaltaTexto, 400))
  ∧ crear_tarea 0 (cuerpo "   ") ∅ = (∅, (BError TextoVacio, 400))
  ∧ crear_tarea 0 (JBool true) ∅ = (∅, (BError (ErrExc (TypeError (JBool true))), 500)).
Proof.
  split_and!.
  - apply (crear_tarea_sin_texto 0 (JStr "hola")).
    left. intros m Hm. discriminate Hm.
  - apply (crear_tarea_sin_texto 0 (cuerpo "   ") ∅).
    right. exists {[ "texto" := JStr "   " ]}, (text_of_string "   ").
    split_and!; reflexivity.
  - apply (crear_tarea_sin_texto 0 (JBool true) ∅).
    left. intros m Hm. discriminate Hm.
Defined.

(** C10: a POST whose body binds 'texto' to a value that is not a string
    is answered 500 with the message of the AttributeError that
    [.strip()] raised, not 400, and no task is added. *)
Theorem crear_tarea_texto_no_str_500 now (m : gmap string json) v (s : Store) :
  m !! "texto" = Some v →
  (∀ t, v ≠ JStr t) →
  crear_tarea now (JObj m) s = (s, (BError (ErrExc (AttributeError v "strip")), 500)).
Proof.
  intros Hv Hns. unfold crear_tarea. rewrite (truthy_obj m _ _ Hv). simpl.
  rewrite Hv. rewrite bool_decide_true by eauto. simpl.
  destruct v; simpl; try done. by destruct (Hns s0).
Qed.

Lemma crear_tarea_texto_no_str_500_witness :
  crear_tarea 0 (JObj {[ "texto" := JInt 5 ]}) ∅
  = (∅, (BError (ErrExc (AttributeError (JInt 5) "strip")), 500)).
Proof.
  apply (crear_tarea_texto_no_str_500 0 {[ "texto" := JInt 5 ]} (JInt 5) ∅).
  - reflexivity.
  - intros t H. discriminate H.
Defined.




(** ** DELETE /api/tareas/<id> *)

(** C8: for an id that is in the store, DELETE is answered 200 with the
    confirmation message; afterwards the id is absent, so that a GET of
    it is answered 404, the store holds exactly one task less, and every
    other task is as before. *)
Theorem eliminar_tarea_presente id tarea (s : Store) :
  s !! id = Some tarea →
  (eliminar_tarea id s).2 = (BMensaje, 200)
  ∧ (eliminar_tarea id s).1 !! id = None
  ∧ (obtener_tarea id (eliminar_tarea id s).1).2 = (BError NoEncontrada, 404)
  ∧ S (size (eliminar_tarea id s).1) = size s
  ∧ ∀ j, j ≠ id → (eliminar_tarea id s).1 !! j = s !! j.
Proof.
  intros Hs. unfold eliminar_tarea. rewrite Hs. simpl.
  split_and!; [done|apply lookup_delete_eq| | |].
  - unfold obtener_tarea. by rewrite lookup_delete_eq.
  - rewrite map_size_delete, Hs.
    assert (size s ≠ 0%nat) by (eapply map_size_ne_0_lookup_2; eauto).
    destruct (size s); simpl; done.
  - intros j Hj. by rewrite lookup_delete_ne.
Qed.

Lemma eliminar_tarea_presente_witness :
  let s : Store := {[ 1 := Tarea.mk 1 "Buy milk" (Some false) 0 ]} in
  (eliminar_tarea 1 s).2 = (BMensaje, 200)
  ∧ (eliminar_tarea 1 s).1 !! 1 = None
  ∧ (obtener_tarea 1 (eliminar_tarea 1 s).1).2 = (BError NoEncontrada, 404)
  ∧ S (size (eliminar_tarea 1 s).1) = size s
  ∧ ∀ j, j ≠ 1 → (eliminar_tarea 1 s).1 !! j = s !! j.
Proof.
  apply (eliminar_tarea_presente 1 (Tarea.mk 1 "Buy milk" (Some false) 0)
           {[ 1 := Tarea.mk 1 "Buy milk" (Some false) 0 ]}).
  reflexivity.
Defined.

(** ** PUT: frame and idempotence *)

Lemma put_fields_solo_completada v :
  put_fields (JObj {[ "completada" := v ]}) = Ok (None, Some v).
Proof. reflexivity. Qed.

(** C5: a PUT on a stored task whose body holds only the key
    'completada' leaves the task's texto, id and fecha_creacion, and
    every other task, as they were; with a boolean value it is answered
    200 and the task's completada is that boolean. *)
Theorem actualizar_solo_completada id v tarea (s : Store) :
  s !! id = Some tarea →
  let s' := (actualizar_tarea id (JObj {[ "completada" := v ]}) s).1 in
  (∃ tarea',
      s' !! id = Some tarea'
      ∧ Tarea.texto tarea' = Tarea.texto tarea
      ∧ Tarea.id tarea' = Tarea.id tarea
      ∧ Tarea.fecha_creacion tarea' = Tarea.fecha_creacion tarea
      ∧ ∀ b, v = JBool b →
          Tarea.completada tarea' = Some b
          ∧ (actualizar_tarea id (JObj {[ "completada" := v ]}) s).2
            = (BTarea (to_dict tarea'), 200))
  ∧ ∀ j, j ≠ id → s' !! j = s !! j.
Proof.
  intros Hs s'. subst s'.
  rewrite (actualizar_tarea_unfold _ _ _ _ Hs), put_fields_solo_completada.
  simpl. unfold db_update.
  destruct (boolean_bind v) as [c|e] eqn:Hc; simpl.
  - split.
    + eexists. rewrite lookup_insert_eq. split_and!; try done.
      intros b ->. simpl in Hc. by injection Hc as <-.
    + intros j Hj. by rewrite lookup_insert_ne.
  - split; [|done]. exists tarea. split_and!; try done.
    intros b ->. done.
Qed.

Lemma actualizar_solo_completada_witness :
  let s : Store := {[ 1 := Tarea.mk 1 "Buy milk" (Some false) 0 ]} in
  let s' := (actualizar_tarea 1 (JObj {[ "completada" := JBool true ]}) s).1 in
  (∃ tarea',
      s' !! 1 = Some tarea'
      ∧ Tarea.texto tarea' = "Buy milk"
      ∧ Tarea.id tarea' = 1
      ∧ Tarea.fecha_creacion tarea' = 0
      ∧ ∀ b, JBool true = JBool b →
          Tarea.completada tarea' = Some b
          ∧ (actualizar_tarea 1 (JObj {[ "completada" := JBool true ]}) s).2
            = (BTarea (to_dict tarea'), 200))
  ∧ ∀ j, j ≠ 1 → s' !! j = s !! j.
Proof.
  apply (actualizar_solo_completada 1 (JBool true)
           (Tarea.mk 1 "Buy milk" (Some false) 0)
           {[ 1 := Tarea.mk 1 "Buy milk" (Some false) 0 ]}).
  reflexivity.
Defined.

(** C9: repeating a PUT with the same body gives the store, and the
    response, of the first one: the second application changes nothing. *)
Theorem actualizar_tarea_idempotente id datos (s : Store) :
  actualizar_tarea id datos (actualizar_tarea id datos s).1
  = ((actualizar_tarea id datos s).1, (actualizar_tarea id datos s).2).
Proof.
  destruct (s !! id) as [tarea|] eqn:Hs.
  2:{ unfold actualizar_tarea. rewrite Hs. simpl. by rewrite Hs. }
  destruct (actualizar_tarea_cases id datos s tarea Hs)
    as [[e He]|(texto & completada & c & Hf & [Hc Hutf] & Hok)].
  - rewrite He. simpl. by rewrite He.
  - simpl in Hok. rewrite Hok. simpl.
    rewrite (actualizar_tarea_unfold id datos _ _ (lookup_insert_eq _ _ _)).
    rewrite Hf. simpl. unfold db_update. simpl.
    assert (match completada with
            | None => Ok c
            | Some v => boolean_bind v
            end = Ok c) as ->.
    { destruct completada; [done|]. done. }
    simpl. destruct texto as [x|]; simpl.
    + unfold text_bind. rewrite (Hutf x eq_refl). simpl. by rewrite insert_insert_eq.
    + by rewrite insert_insert_eq.
Qed.

(** ** Runs from the empty store *)

Lemma ids_positivos_handle r (s : Store) :
  ids_positivos s → ids_positivos (handle r s).1.
Proof.
  intros Hpos. destruct r as [|id|now datos|id datos|id|]; simpl; try done.
  - unfold obtener_tarea. by destruct (s !! id).
  - destruct (crear_tarea_cases now datos s)
      as [(msg & st & -> & _)|(m & t & c & _ & _ & _ & _ & ->)]; [done|].
    simpl. intros i. rewrite lookup_insert_is_Some.
    intros [<-|[_ Hi]]; [by apply next_rowid_pos|by apply Hpos].
  - destruct (s !! id) as [tarea|] eqn:Hs.
    2:{ unfold actualizar_tarea. by rewrite Hs. }
    destruct (actualizar_tarea_cases id datos s tarea Hs)
      as [[e ->]|(texto & completada & c & _ & _ & Hok)]; [done|].
    simpl in Hok. rewrite Hok. simpl. intros i. rewrite lookup_insert_is_Some.
    intros [<-|[_ Hi]]; apply Hpos; eauto.
  - unfold eliminar_tarea. destruct (s !! id); [|done]. simpl.
    intros i [x Hi]. apply lookup_delete_Some in Hi as [_ Hi]. apply Hpos; eauto.
Qed.

Lemma run_cons r rs (s : Store) :
  run (r :: rs) s =
    ((run rs (handle r s).1).1, (handle r s).2 :: (run rs (handle r s).1).2).
Proof.
  simpl. destruct (handle r s) as [s1 resp]. simpl.
  by destruct (run rs s1).
Qed.

Lemma run_app rs1 rs2 (s : Store) :
  run (rs1 ++ rs2) s =
    ((run rs2 (run rs1 s).1).1, (run rs1 s).2 ++ (run rs2 (run rs1 s).1).2).
Proof.
  revert s. induction rs1 as [|r rs1 IH]; intros s.
  - simpl. by destruct (run rs2 s).
  - rewrite <-app_comm_cons, !run_cons, IH. done.
Qed.

Lemma ids_positivos_run rs (s : Store) :
  ids_positivos s → ids_positivos (run rs s).1.
Proof.
  revert s. induction rs as [|r rs IH]; intros s Hpos; [done|].
  rewrite run_cons. simpl. by apply IH, ids_positivos_handle.
Qed.

Lemma ids_positivos_alcanzable rs : ids_positivos (run rs ∅).1.
Proof.
  apply ids_positivos_run. intros i [x Hi]. by rewrite lookup_empty in Hi.
Qed.

(** ** Creation *)

(** C7, as stated, fails three times: the texto of the response is the
    given text stripped, not the given text; a body whose 'completada'
    the Boolean column refuses is answered 500 although its 'texto' is a
    non-blank string; and so is a body whose 'texto' is a non-blank
    string with a lone surrogate, which the driver cannot encode. *)
Lemma crear_tarea_201_counterexample :
  (∃ d, (crear_tarea 0 (cuerpo "  Buy milk ") ∅).2 = (BTarea d, 201)
        ∧ d_texto d = "Buy milk"
        ∧ d_texto d ≠ "  Buy milk ")
  ∧ crear_tarea 0 cuerpo_si ∅
    = (∅, (BError (ErrExc (StatementError (JStr "si"))), 500))
  ∧ (strip [55296%N] ≠ ""
     ∧ crear_tarea 0 cuerpo_surrogate ∅
       = (∅, (BError (ErrExc (UnicodeEncodeError [55296%N])), 500))).
Proof.
  split_and!; [|by vm_compute|by vm_compute|by vm_compute].
  eexists. split; [by vm_compute|]. simpl. split; [done|]. by vm_compute.
Qed.

(** C7 (amended): in every store reached from the empty one, a POST
    whose body holds 'texto' as a string that is not blank and has no
    lone surrogate, and whose 'completada' is absent or a value the
    Boolean column takes, is answered 201 with the dict of the new
    task: its id is positive and held by no stored task, its texto is
    the given text stripped, its completada is false when 'completada'
    is absent, its fecha_creacion is the time of the request; the store
    is the old one with that task added under its id. *)
Theorem crear_tarea_201 rs now (m : gmap string json) t c :
  m !! "texto" = Some (JStr t) →
  strip t ≠ "" →
  utf8_ok t = true →
  boolean_bind (default (JBool false) (m !! "completada")) = Ok c →
  let s := (run rs ∅).1 in
  ∃ nueva,
    crear_tarea now (JObj m) s = (<[Tarea.id nueva := nueva]> s, (BTarea (to_dict nueva), 201))
    ∧ 0 < Tarea.id nueva
    ∧ s !! Tarea.id nueva = None
    ∧ Tarea.texto nueva = strip t
    ∧ (m !! "completada" = None → Tarea.completada nueva = Some false)
    ∧ Tarea.fecha_creacion nueva = now.
Proof.
  intros Ht Hne Hutf Hc s.
  exists (Tarea.mk (next_rowid s) (strip t) (Some (default false c)) now).
  rewrite (crear_tarea_ok now m t c s Ht Hne); [|by rewrite utf8_ok_strip|done].
  simpl. split_and!; try done.
  - apply next_rowid_pos, ids_positivos_alcanzable.
  - apply next_rowid_fresh.
  - intros Hnone. rewrite Hnone in Hc. simpl in Hc. by injection Hc as <-.
Qed.

Lemma crear_tarea_201_witness :
  ∃ nueva,
    crear_tarea 7 (cuerpo "  Buy milk ") (run [PostTarea 0 (cuerpo "a")] ∅).1
    = (<[Tarea.id nueva := nueva]> (run [PostTarea 0 (cuerpo "a")] ∅).1,
       (BTarea (to_dict nueva), 201))
    ∧ 0 < Tarea.id nueva
    ∧ (run [PostTarea 0 (cuerpo "a")] ∅).1 !! Tarea.id nueva = None
    ∧ Tarea.texto nueva = strip "  Buy milk "
    ∧ (({[ "texto" := JStr "  Buy milk " ]} : gmap string json) !! "completada" = None →
       Tarea.completada nueva = Some false)
    ∧ Tarea.fecha_creacion nueva = 7.
Proof.
  apply (crear_tarea_201 [PostTarea 0 (cuerpo "a")] 7
           {[ "texto" := JStr "  Buy milk " ]} "  Buy milk " (Some false)).
  - reflexivity.
  - vm_compute. intros [=].
  - reflexivity.
  - reflexivity.
Defined.

(** ** The ids a run assigns *)

Lemma created_ids_cons resp resps :
  created_ids (resp :: resps) = created_ids [resp] ++ created_ids resps.
Proof.
  destruct resp as [[d| | | |] st]; try done.
  simpl. destruct st as [|p|p]; try done.
  do 8 (destruct p as [p|p|]; try done).
Qed.

Lemma created_ids_app l1 l2 :
  created_ids (l1 ++ l2) = created_ids l1 ++ created_ids l2.
Proof.
  induction l1 as [|resp l1 IH]; [done|].
  rewrite <-app_comm_cons, created_ids_cons, IH, (created_ids_cons resp l1).
  by rewrite app_assoc.
Qed.

(** A request other than DELETE keeps every stored id, and announces
    either no id or the next key, under which it stored a row. *)
Lemma handle_sin_delete r (s : Store) :
  sin_delete r →
  (∀ j, is_Some (s !! j) → is_Some ((handle r s).1 !! j))
  ∧ (created_ids [(handle r s).2] = []
     ∨ (created_ids [(handle r s).2] = [next_rowid s]
        ∧ is_Some ((handle r s).1 !! next_rowid s))).
Proof.
  intros Hr. destruct r as [|id|now datos|id datos|id|]; simpl; try done.
  - split; [done|by left].
  - unfold obtener_tarea. destruct (s !! id); split; try done; by left.
  - destruct (crear_tarea_cases now datos s)
      as [(msg & st & -> & _)|(m & t & c & _ & _ & _ & _ & ->)].
    + split; [done|by left].
    + simpl. split.
      * intros j Hj. rewrite lookup_insert_is_Some.
        destruct (decide (next_rowid s = j)); auto.
      * right. split; [done|]. rewrite lookup_insert_eq. eauto.
  - destruct (s !! id) as [tarea|] eqn:Hs.
    2:{ unfold actualizar_tarea. rewrite Hs. split; [done|by left]. }
    destruct (actualizar_tarea_cases id datos s tarea Hs)
      as [[e ->]|(texto & completada & c & _ & _ & Hok)].
    + split; [done|by left].
    + simpl in Hok. rewrite Hok. simpl. split; [|by left].
      intros j Hj. rewrite lookup_insert_is_Some.
      destruct (decide (id = j)); auto.
  - split; [done|by left].
Qed.

Lemma created_ids_crecientes rs (s : Store) :
  Forall sin_delete rs →
  StronglySorted Z.lt (created_ids (run rs s).2)
  ∧ Forall (fun i => ∀ j, is_Some (s !! j) → j < i) (created_ids (run rs s).2).
Proof.
  revert s. induction rs as [|r rs IH]; intros s Hrs.
  { simpl. split; constructor. }
  apply Forall_cons in Hrs as [Hr Hrs].
  rewrite run_cons. cbn [fst snd]. rewrite created_ids_cons.
  destruct (handle_sin_delete r s Hr) as [Hkeep Hnew].
  destruct (IH (handle r s).1 Hrs) as [Hsorted Hgt].
  assert (Forall (fun i => ∀ j, is_Some (s !! j) → j < i)
            (created_ids (run rs (handle r s).1).2)) as Hgt'.
  { eapply Forall_impl; [exact Hgt|]. simpl. intros i Hi j Hj. by apply Hi, Hkeep. }
  destruct Hnew as [->|[-> Hin]]; simpl; [done|].
  split.
  - constructor; [done|]. eapply Forall_impl; [exact Hgt|]. simpl. intros i Hi. by apply Hi.
  - constructor; [|done]. intros j Hj. by apply next_rowid_gt.
Qed.

(** C2, as stated, fails: after the task with the greatest id is deleted
    the next create is given that id again. *)
Lemma ids_nunca_reusados_counterexample :
  ¬ (∀ rs, Forall es_post_o_delete rs → NoDup (created_ids (run rs ∅).2)).
Proof.
  intros H.
  specialize (H [PostTarea 0 (cuerpo "a"); DeleteTarea 1; PostTarea 1 (cuerpo "b")]).
  assert (created_ids (run [PostTarea 0 (cuerpo "a"); DeleteTarea 1;
                            PostTarea 1 (cuerpo "b")] ∅).2 = [1; 1]) as E
    by (by vm_compute).
  rewrite E in H.
  assert (NoDup [1; 1]) as Hnd by (apply H; repeat constructor).
  apply NoDup_cons in Hnd as [Hnotin _]. apply Hnotin. by left.
Qed.

Lemma handle_next_rowid r (s : Store) :
  match r with
  | DeleteTarea id => max_rowid s ≠ Some id
  | _ => True
  end →
  (created_ids [(handle r s).2] = [] ∧ next_rowid (handle r s).1 = next_rowid s)
  ∨ (created_ids [(handle r s).2] = [next_rowid s]
     ∧ next_rowid (handle r s).1 = next_rowid s + 1).
Proof.
  intros Hr. destruct r as [|id|now datos|id datos|id|]; simpl.
  - by left.
  - unfold obtener_tarea. destruct (s !! id); by left.
  - destruct (crear_tarea_cases now datos s)
      as [(msg & st & -> & _)|(m & t & c & _ & _ & _ & _ & ->)]; [by left|].
    right. simpl. split; [done|apply next_rowid_insert_fresh].
  - destruct (s !! id) as [tarea|] eqn:Hs.
    2:{ unfold actualizar_tarea. rewrite Hs. by left. }
    destruct (actualizar_tarea_cases id datos s tarea Hs)
      as [[e ->]|(texto & completada & c & _ & _ & Hok)]; [by left|].
    simpl in Hok. rewrite Hok. simpl. left. split; [done|].
    apply next_rowid_insert_viejo. eauto.
  - unfold eliminar_tarea. destruct (s !! id) as [tarea|] eqn:Hs; simpl; [|by left].
    left. split; [done|by apply next_rowid_delete_no_mayor].
  - by left.
Qed.

(** Along a run in which no DELETE removes the greatest id, the next key
    never decreases, and the ids assigned are increasing and lie
    between the next key at the start and the next key at the end. *)
Lemma created_ids_sin_delete_del_mayor rs (s : Store) :
  sin_delete_del_mayor rs s →
  StronglySorted Z.lt (created_ids (run rs s).2)
  ∧ Forall (fun i => next_rowid s ≤ i < next_rowid (run rs s).1)
           (created_ids (run rs s).2)
  ∧ next_rowid s ≤ next_rowid (run rs s).1.
Proof.
  revert s. induction rs as [|r rs IH]; intros s Hrs.
  { simpl. split_and!; [constructor|constructor|lia]. }
  destruct Hrs as [Hr Hrs]. rewrite run_cons. cbn [fst snd].
  rewrite created_ids_cons.
  destruct (IH (handle r s).1 Hrs) as (Hsorted & Hbetween & Hmono).
  destruct (handle_next_rowid r s Hr) as [[-> Hnext]|[-> Hnext]]; simpl.
  - rewrite Hnext in Hbetween, Hmono. done.
  - rewrite Hnext in Hbetween, Hmono. split_and!.
    + constructor; [done|]. eapply Forall_impl; [exact Hbetween|].
      simpl. intros i Hi. lia.
    + constructor; [lia|]. eapply Forall_impl; [exact Hbetween|].
      simpl. intros i Hi. lia.
    + lia.
Qed.

Lemma StronglySorted_snoc (l : list Z) x :
  StronglySorted Z.lt l → Forall (fun i => i < x) l → StronglySorted Z.lt (l ++ [x]).
Proof.
  induction 1 as [|a l Hl IH Ha]; intros Hx; simpl.
  - repeat constructor.
  - apply Forall_cons in Hx as [Hax Hx]. constructor; [by apply IH|].
    apply Forall_app. split; [done|]. by repeat constructor.
Qed.

Lemma StronglySorted_lt_NoDup (l : list Z) : StronglySorted Z.lt l → NoDup l.
Proof.
  induction 1 as [|a l Hl IH Ha]; constructor; [|done].
  intros Hin. rewrite Forall_forall in Ha. specialize (Ha _ Hin). lia.
Qed.

(** C2 (amended): in every store reached from the empty one, the id a
    successful create assigns is positive and greater than the id of
    every task the store holds at that moment, hence different from all
    of them; and when no DELETE before it removed the task that had the
    greatest id at that moment, the ids assigned so far, followed by the
    new one, are strictly increasing, hence without a duplicate: an id
    is given twice only after the task with the greatest id was
    deleted. *)
Theorem ids_frescos_y_crecientes rs now datos d :
  let s := (run rs ∅).1 in
  (crear_tarea now datos s).2 = (BTarea d, 201) →
  0 < d_id d
  ∧ (∀ j, is_Some (s !! j) → j < d_id d)
  ∧ s !! d_id d = None
  ∧ (sin_delete_del_mayor rs ∅ →
     StronglySorted Z.lt (created_ids (run rs ∅).2 ++ [d_id d])
     ∧ NoDup (created_ids (run rs ∅).2 ++ [d_id d])).
Proof.
  intros s Hresp.
  assert (d_id d = next_rowid s) as Hid.
  { destruct (crear_tarea_cases now datos s)
      as [(msg & st & E & _)|(m & t & c & _ & _ & _ & _ & E)];
      rewrite E in Hresp; simpl in Hresp; [done|].
    by injection Hresp as <-. }
  rewrite Hid. split_and!.
  - apply next_rowid_pos, ids_positivos_alcanzable.
  - intros j Hj. by apply next_rowid_gt.
  - apply next_rowid_fresh.
  - intros Hrs.
    destruct (created_ids_sin_delete_del_mayor rs ∅ Hrs) as (Hsorted & Hbetween & _).
    assert (StronglySorted Z.lt (created_ids (run rs ∅).2 ++ [next_rowid s])) as Hs.
    { apply StronglySorted_snoc; [done|].
      eapply Forall_impl; [exact Hbetween|]. simpl. intros i Hi. fold s in Hi. lia. }
    split; [done|by apply StronglySorted_lt_NoDup].
Qed.

Lemma ids_frescos_y_crecientes_witness :
  StronglySorted Z.lt
    (created_ids (run [PostTarea 0 (cuerpo "a"); PostTarea 1 (cuerpo "b");
                       DeleteTarea 1] ∅).2 ++ [3])
  ∧ NoDup
      (created_ids (run [PostTarea 0 (cuerpo "a"); PostTarea 1 (cuerpo "b");
                         DeleteTarea 1] ∅).2 ++ [3]).
Proof.
  apply (ids_frescos_y_crecientes
           [PostTarea 0 (cuerpo "a"); PostTarea 1 (cuerpo "b"); DeleteTarea 1]
           5 (cuerpo "c")
           {| d_id := 3; d_texto := "c"; d_completada := Some false;
              d_fecha_creacion := 5 |}).
  - vm_compute. reflexivity.
  - simpl. repeat split. vm_compute. intros H. discriminate H.
Defined.

(** ** The texto of the stored tasks *)

Lemma lstrip_empieza s : empieza_sin_espacio (lstrip s).
Proof.
  induction s as [|a s IH]; simpl; [done|].
  destruct (is_space a) eqn:E; [done|]. simpl. done.
Qed.

Lemma rstrip_rstrip s : rstrip (rstrip s) = rstrip s.
Proof.
  induction s as [|a s IH]; simpl; [done|].
  destruct (rstrip s) as [|b r] eqn:E.
  - destruct (is_space a) eqn:Ea; simpl; [done|]. by rewrite Ea.
  - remember (b :: r) as u. simpl. rewrite IH. by subst u.
Qed.

Lemma lstrip_rstrip s : empieza_sin_espacio s → lstrip (rstrip s) = rstrip s.
Proof.
  destruct s as [|a s]; simpl; [done|]. intros Ha.
  destruct (rstrip s); rewrite ?Ha; simpl; by rewrite Ha.
Qed.

Lemma strip_idempotente s : strip (strip s) = strip s.
Proof.
  unfold strip. rewrite (lstrip_rstrip (lstrip s)) by apply lstrip_empieza.
  apply rstrip_rstrip.
Qed.

(** POST and DELETE keep it: [crear_tarea] checks the stripped text
    before it stores it. *)
Lemma texto_no_vacio_crear now datos (s : Store) :
  texto_no_vacio s → texto_no_vacio (crear_tarea now datos s).1.
Proof.
  intros Hs.
  destruct (crear_tarea_cases now datos s)
    as [(msg & st & -> & _)|(m & t & c & _ & _ & [Hne _] & _ & ->)]; [done|].
  simpl. intros i x. rewrite lookup_insert_Some.
  intros [[_ <-]|[_ Hi]]; [|by eapply Hs].
  simpl. by rewrite strip_idempotente.
Qed.

Lemma texto_no_vacio_eliminar id (s : Store) :
  texto_no_vacio s → texto_no_vacio (eliminar_tarea id s).1.
Proof.
  intros Hs. unfold eliminar_tarea. destruct (s !! id); [|done]. simpl.
  intros i x Hi. apply lookup_delete_Some in Hi as [_ Hi]. by eapply Hs.
Qed.

(** C1 fails at this run: the POST stores a task, the PUT whose 'texto'
    is blank is answered 200 and leaves that task with the empty texto.
    [crear_tarea] answers such a text with a 400; [actualizar_tarea]
    strips it and stores it unchecked. *)
Theorem put_texto_en_blanco_persiste_vacio :
  let r := run [PostTarea 0 (cuerpo "Buy milk"); PutTarea 1 (cuerpo "   ")] ∅ in
  r.2.*2 = [201; 200]
  ∧ r.1 !! 1 = Some (Tarea.mk 1 "" (Some false) 0)
  ∧ ¬ texto_no_vacio r.1.
Proof.
  assert ((run [PostTarea 0 (cuerpo "Buy milk"); PutTarea 1 (cuerpo "   ")] ∅).1 !! 1
          = Some (Tarea.mk 1 "" (Some false) 0)) as E by (by vm_compute).
  split_and!; [by vm_compute|exact E|].
  intros H. by apply (H 1 _ E).
Qed.

(** ** Statistics *)

Lemma size_filter_map_to_list (P : Z * Tarea.t → Prop) `{!∀ x, Decision (P x)}
    (s : Store) :
  size (filter P s) = length (filter P (map_to_list s)).
Proof.
  induction s as [|i x s Hi IH] using map_ind.
  - by rewrite map_filter_empty, map_to_list_empty.
  - rewrite map_to_list_insert by done. rewrite filter_cons, map_filter_insert.
    destruct (decide (P (i, x))).
    + rewrite map_size_insert_None by (by apply map_lookup_filter_None_2; left).
      simpl. by rewrite IH.
    + by rewrite delete_id.
Qed.

Lemma length_filter_to_dict (l : list (Z * Tarea.t)) :
  length (filter (fun d => d_completada d = Some true) (to_dict <$> l.*2))
  = length (filter (fun kt : Z * Tarea.t => es_completada kt.2) l).
Proof.
  induction l as [|[k t] l IH]; [done|].
  rewrite !fmap_cons, !filter_cons. simpl. unfold es_completada at 1.
  destruct (decide (Tarea.completada t = Some true)); simpl; by rewrite IH.
Qed.

Lemma crear_tarea_cuerpo now (t : string) (s : Store) :
  strip t ≠ "" →
  crear_tarea now (cuerpo t) s =
    let nueva := Tarea.mk (next_rowid s) (strip t) (Some false) now in
    (<[next_rowid s := nueva]> s, (BTarea (to_dict nueva), 201)).
Proof.
  intros Hne.
  apply (crear_tarea_ok now {[ "texto" := JStr t ]} t (Some false)); try done.
  by rewrite utf8_ok_strip, utf8_ok_string.
Qed.

Lemma actualizar_tarea_marcar id b tarea (s : Store) :
  s !! id = Some tarea →
  actualizar_tarea id (cuerpo_completada b) s =
    let tarea' := Tarea.mk (Tarea.id tarea) (Tarea.texto tarea) (Some b)
                           (Tarea.fecha_creacion tarea) in
    (<[id := tarea']> s, (BTarea (to_dict tarea'), 200)).
Proof.
  intros Hs. unfold cuerpo_completada.
  by rewrite (actualizar_tarea_unfold _ _ _ _ Hs), put_fields_solo_completada.
Qed.

Lemma next_rowid_hasta n (s : Store) :
  (∀ i, is_Some (s !! i) ↔ 1 ≤ i ≤ Z.of_nat n) → next_rowid s = Z.of_nat n + 1.
Proof.
  intros Hdom. unfold next_rowid. pose proof (max_rowid_spec s) as H.
  destruct (max_rowid s) as [m|].
  - destruct H as [Hm Hle]. apply Hdom in Hm.
    assert (is_Some (s !! Z.of_nat n)) as Hn by (apply Hdom; lia).
    apply Hle in Hn. lia.
  - subst s. destruct n as [|n]; [done|].
    assert (is_Some ((∅ : Store) !! 1)) as [x Hx] by (apply Hdom; lia).
    by rewrite lookup_empty in Hx.
Qed.

Lemma recien_creadas_crear posts n (s : Store) :
  recien_creadas n s →
  Forall (fun p : Z * string => strip p.2 ≠ "") posts →
  recien_creadas (n + length posts) (run (crear posts) s).1.
Proof.
  revert n s. induction posts as [|[now t] posts IH]; intros n s Hs Hposts.
  { simpl. by rewrite Nat.add_0_r. }
  apply Forall_cons in Hposts as [Ht Hposts]. simpl in Ht.
  unfold crear. rewrite fmap_cons. fold (crear posts). rewrite run_cons.
  cbn [fst snd handle]. rewrite (crear_tarea_cuerpo now t s Ht). cbn [fst].
  replace (n + length ((now, t) :: posts))%nat with (S n + length posts)%nat
    by (simpl; lia).
  apply IH; [|done].
  destruct Hs as (Hdom & Hsize & Hpend).
  rewrite (next_rowid_hasta n s Hdom). split_and!.
  - intros i. rewrite lookup_insert_is_Some, Hdom. split.
    + intros [<-|[_ ?]]; lia.
    + intros ?. destruct (decide (Z.of_nat n + 1 = i)); [by left|right]. split; [done|lia].
  - rewrite map_size_insert_None; [by rewrite Hsize|].
    destruct (s !! (Z.of_nat n + 1)) eqn:E; [|done].
    assert (1 ≤ Z.of_nat n + 1 ≤ Z.of_nat n) by (apply Hdom; eauto). lia.
  - intros i x. rewrite lookup_insert_Some. intros [[_ <-]|[_ Hi]]; [done|by eapply Hpend].
Qed.

Lemma marcar_run ids (s : Store) :
  NoDup ids →
  (∀ i, i ∈ ids → ∃ t, s !! i = Some t ∧ Tarea.completada t = Some false) →
  size (run (marcar ids) s).1 = size s
  ∧ size (filter (fun kt : Z * Tarea.t => es_completada kt.2) (run (marcar ids) s).1)
    = (size (filter (fun kt : Z * Tarea.t => es_completada kt.2) s) + length ids)%nat.
Proof.
  revert s. induction ids as [|i ids IH]; intros s Hnd Hin.
  { simpl. split; [done|lia]. }
  apply NoDup_cons in Hnd as [Hi Hnd].
  destruct (Hin i) as (t & Ht & Hpend); [by left|].
  unfold marcar. rewrite fmap_cons. fold (marcar ids). rewrite run_cons.
  cbn [fst snd handle]. rewrite (actualizar_tarea_marcar i true t s Ht). cbn [fst].
  set (t' := Tarea.mk (Tarea.id t) (Tarea.texto t) (Some true) (Tarea.fecha_creacion t)).
  destruct (IH (<[i := t']> s) Hnd) as [Hsize Hcount].
  { intros j Hj. destruct (Hin j) as (u & Hu & Hpu); [by right|].
    exists u. split; [|done]. rewrite lookup_insert_ne; [done|]. by intros ->. }
  rewrite Hsize, Hcount. split.
  - apply map_size_insert_Some. eauto.
  - rewrite map_filter_insert_True by done.
    rewrite map_size_insert_None; [simpl; lia|].
    apply map_lookup_filter_None_2. right. intros u Hu. simpl.
    rewrite Ht in Hu. injection Hu as <-. unfold es_completada. by rewrite Hpend.
Qed.

(** C6: GET /api/estadisticas is answered 200 with, as total, the number
    of tasks GET /api/tareas lists; as completadas, the number of those
    whose completada is true; as pendientes, total minus completadas.
    In particular, after N tasks are created in the empty store and K
    different ones of them are marked completed, the answer is
    total N, completadas K, pendientes N - K. *)
Theorem obtener_estadisticas_correcta :
  (∀ s : Store,
     ∃ l, (obtener_tareas s).2 = (BTareas l, 200)
          ∧ obtener_estadisticas s =
              (s, (BStats (Z.of_nat (length l))
                          (Z.of_nat (length (filter (fun d => d_completada d = Some true) l)))
                          (Z.of_nat (length l)
                           - Z.of_nat (length (filter (fun d => d_completada d = Some true) l))),
                   200)))
  ∧ (∀ (posts : list (Z * string)) (ids : list Z),
       Forall (fun p : Z * string => strip p.2 ≠ "") posts →
       NoDup ids →
       (∀ i, i ∈ ids → 1 ≤ i ≤ Z.of_nat (length posts)) →
       (obtener_estadisticas (run (crear posts ++ marcar ids) ∅).1).2
       = (BStats (Z.of_nat (length posts)) (Z.of_nat (length ids))
                 (Z.of_nat (length posts) - Z.of_nat (length ids)), 200)).
Proof.
  split.
  - intros s. eexists. split; [reflexivity|]. unfold obtener_estadisticas.
    rewrite length_fmap, length_fmap, length_map_to_list.
    by rewrite length_filter_to_dict, size_filter_map_to_list.
  - intros posts ids Hposts Hnd Hids.
    rewrite run_app. cbn [fst].
    assert (recien_creadas 0 (∅ : Store)) as H0.
    { split_and!; [|done|].
      - intros i. rewrite lookup_empty. split; [by intros [? ?]|simpl; lia].
      - intros i t. by rewrite lookup_empty. }
    pose proof (recien_creadas_crear posts 0 ∅ H0 Hposts) as (Hdom & Hsize & Hpend).
    simpl in Hdom, Hsize.
    destruct (marcar_run ids (run (crear posts) ∅).1 Hnd) as [Hs Hc].
    { intros i Hi. apply Hids, Hdom in Hi as [t Ht]. exists t. split; [done|by eapply Hpend]. }
    unfold obtener_estadisticas. cbn [snd]. rewrite Hs, Hc, Hsize.
    assert (size (filter (fun kt : Z * Tarea.t => es_completada kt.2)
                    (run (crear posts) ∅).1) = 0%nat) as ->; [|done].
    apply map_size_empty_iff, map_empty_filter_2.
    apply map_Forall_lookup_2. intros i t Ht. simpl. unfold es_completada.
    by rewrite (Hpend i t Ht).
Qed.

Lemma obtener_estadisticas_correcta_witness :
  (obtener_estadisticas
     (run (crear [(0, "a"); (1, "b"); (2, "c")] ++ marcar [3; 1]) ∅).1).2
  = (BStats 3 2 1, 200).
Proof.
  apply (proj2 obtener_estadisticas_correcta [(0, "a"); (1, "b"); (2, "c")] [3; 1]).
  - repeat constructor; vm_compute; intros [=].
  - apply (bool_decide_unpack _). vm_compute. exact I.
  - intros i Hi. apply list_elem_of_In in Hi. simpl in Hi. simpl. lia.
Defined.

(** * Further properties of the handlers *)

(** ** The effect of a request on the table *)

Lemma put_fields_texto datos x c :
  put_fields datos = Ok (Some x, c) →
  ∃ m t, datos = JObj m ∧ m !! "texto" = Some (JStr t) ∧ x = strip t.
Proof.
  unfold put_fields. destruct datos as [| b | z | q | str | l | m]; simpl; try done.
  - destruct (is_substring "texto" str); simpl; [done|].
    destruct (is_substring "completada" str); simpl; done.
  - destruct (existsb (is_str "texto") l); simpl; [done|].
    destruct (existsb (is_str "completada") l); simpl; done.
  - destruct (m !! "texto") as [v|] eqn:Ht.
    + rewrite (bool_decide_true (is_Some (Some v))) by eauto. simpl.
      destruct v as [| b | z | q | t | l | m']; simpl; try done.
      destruct (m !! "completada") as [w|] eqn:Hc.
      * rewrite (bool_decide_true (is_Some (Some w))) by eauto. simpl.
        intros [= <- _]. eauto.
      * rewrite (bool_decide_false (is_Some None)) by (by intros [? ?]). simpl.
        intros [= <- _]. eauto.
    + rewrite (bool_decide_false (is_Some None)) by (by intros [? ?]). simpl.
      destruct (m !! "completada") as [w|] eqn:Hc.
      * rewrite (bool_decide_true (is_Some (Some w))) by eauto. simpl. done.
      * rewrite (bool_decide_false (is_Some None)) by (by intros [? ?]). simpl. done.
Qed.

Lemma handle_paso r (s : Store) : paso s (handle r s).1.
Proof.
  destruct r as [|id|now datos|id datos|id|]; simpl; try apply paso_nada.
  - unfold obtener_tarea. destruct (s !! id); apply paso_nada.
  - destruct (crear_tarea_cases now datos s)
      as [(msg & st & -> & _)|(m & t & c & _ & _ & [Hne _] & _ & ->)]; [apply paso_nada|].
    simpl. by apply (paso_insert s _ t).
  - destruct (s !! id) as [tarea|] eqn:Hs.
    2:{ unfold actualizar_tarea. rewrite Hs. apply paso_nada. }
    destruct (actualizar_tarea_cases id datos s tarea Hs)
      as [[e ->]|(texto & completada & c & Hf & _ & Hok)]; [apply paso_nada|].
    simpl in Hok. rewrite Hok. simpl.
    apply (paso_update s id tarea); try done.
    destruct texto as [x|]; simpl; [right|by left].
    apply put_fields_texto in Hf as (m & t & _ & _ & ->). eauto.
  - unfold eliminar_tarea. destruct (s !! id); [apply paso_delete|apply paso_nada].
Qed.

Lemma id_es_clave_paso (s s' : Store) : paso s s' → id_es_clave s → id_es_clave s'.
Proof.
  intros Hp Hs. destruct Hp as [|nueva t Hid _ _|id tarea tarea' Htarea Hid _ _|id].
  - done.
  - intros i x. rewrite lookup_insert_Some. intros [[<- <-]|[_ Hi]]; [done|by apply Hs].
  - intros i x. rewrite lookup_insert_Some. intros [[<- <-]|[_ Hi]]; [|by apply Hs].
    rewrite Hid. by apply Hs.
  - intros i x Hi. apply lookup_delete_Some in Hi as [_ Hi]. by apply Hs.
Qed.

Lemma texto_recortado_paso (s s' : Store) :
  paso s s' → texto_recortado s → texto_recortado s'.
Proof.
  intros Hp Hs. destruct Hp as [|nueva t _ Ht _|id tarea tarea' Htarea _ _ Ht|id].
  - done.
  - intros i x. rewrite lookup_insert_Some. intros [[_ <-]|[_ Hi]]; [|by eapply Hs].
    by rewrite Ht, strip_idempotente.
  - intros i x. rewrite lookup_insert_Some. intros [[_ <-]|[_ Hi]]; [|by eapply Hs].
    destruct Ht as [->|[t ->]]; [by eapply Hs|apply strip_idempotente].
  - intros i x Hi. apply lookup_delete_Some in Hi as [_ Hi]. by eapply Hs.
Qed.

Lemma run_invariante (P : Store → Prop) :
  (∀ s s', paso s s' → P s → P s') →
  ∀ rs s, P s → P (run rs s).1.
Proof.
  intros Hstep rs. induction rs as [|r rs IH]; intros s Hs; [done|].
  rewrite run_cons. cbn [fst]. apply IH. eapply Hstep; [apply handle_paso|done].
Qed.

Lemma id_es_clave_alcanzable rs : id_es_clave (run rs ∅).1.
Proof.
  apply (run_invariante id_es_clave id_es_clave_paso).
  intros i t. by rewrite lookup_empty.
Qed.

Lemma texto_recortado_alcanzable rs : texto_recortado (run rs ∅).1.
Proof.
  apply (run_invariante texto_recortado texto_recortado_paso).
  intros i t. by rewrite lookup_empty.
Qed.

(** X1: in every store reached from the empty one, a task is stored
    under its own id, that id is positive, and its texto has no leading
    or trailing whitespace. *)
Theorem tareas_alcanzables rs i t :
  (run rs ∅).1 !! i = Some t →
  Tarea.id t = i ∧ 0 < i ∧ strip (Tarea.texto t) = Tarea.texto t.
Proof.
  intros Hi. split_and!.
  - by apply (id_es_clave_alcanzable rs).
  - apply (ids_positivos_alcanzable rs). eauto.
  - by apply (texto_recortado_alcanzable rs i).
Qed.

Lemma tareas_alcanzables_witness :
  Tarea.id (Tarea.mk 1 "" (Some false) 0) = 1
  ∧ 0 < 1
  ∧ strip (Tarea.texto (Tarea.mk 1 "" (Some false) 0))
    = Tarea.texto (Tarea.mk 1 "" (Some false) 0).
Proof.
  apply (tareas_alcanzables
           [PostTarea 0 (cuerpo " Buy milk "); PutTarea 1 (cuerpo "   ")]).
  vm_compute. reflexivity.
Defined.

(** ** Reading back what was written *)

(** X2: a GET of the id a 201 response announces, served right after the
    POST, is answered 200 with the same dict, and leaves the store as
    the POST left it. *)
Theorem post_luego_get now datos d (s : Store) :
  (crear_tarea now datos s).2 = (BTarea d, 201) →
  obtener_tarea (d_id d) (crear_tarea now datos s).1
  = ((crear_tarea now datos s).1, (BTarea d, 200)).
Proof.
  intros Hresp.
  destruct (crear_tarea_cases now datos s)
    as [(msg & st & E & _)|(m & t & c & _ & _ & _ & _ & E)];
    rewrite E in Hresp |- *; simpl in Hresp; [done|].
  injection Hresp as <-. simpl. unfold obtener_tarea.
  by rewrite lookup_insert_eq.
Qed.

Lemma post_luego_get_witness :
  obtener_tarea 1 (crear_tarea 7 (cuerpo " Buy milk ") ∅).1
  = ((crear_tarea 7 (cuerpo " Buy milk ") ∅).1,
     (BTarea {| d_id := 1; d_texto := "Buy milk"; d_completada := Some false;
                d_fecha_creacion := 7 |}, 200)).
Proof.
  apply (post_luego_get 7 (cuerpo " Buy milk ")
           {| d_id := 1; d_texto := "Buy milk"; d_completada := Some false;
              d_fecha_creacion := 7 |} ∅).
  vm_compute. reflexivity.
Defined.

(** X3: in every store reached from the empty one, the dict a 200
    response to a PUT carries has the id of the request, and a GET of
    that id served right after is answered 200 with the same dict. *)
Theorem put_luego_get rs id datos d :
  let s := (run rs ∅).1 in
  (actualizar_tarea id datos s).2 = (BTarea d, 200) →
  d_id d = id
  ∧ obtener_tarea id (actualizar_tarea id datos s).1
    = ((actualizar_tarea id datos s).1, (BTarea d, 200)).
Proof.
  intros s Hresp.
  destruct (s !! id) as [tarea|] eqn:Hs.
  2:{ unfold actualizar_tarea in Hresp. by rewrite Hs in Hresp. }
  destruct (actualizar_tarea_cases id datos s tarea Hs)
    as [[e E]|(texto & completada & c & _ & _ & E)];
    simpl in E; rewrite E in Hresp |- *; simpl in Hresp; [done|].
  injection Hresp as <-. simpl. split.
  - by apply (id_es_clave_alcanzable rs).
  - unfold obtener_tarea. by rewrite lookup_insert_eq.
Qed.

Lemma put_luego_get_witness :
  let s := (run [PostTarea 0 (cuerpo "a")] ∅).1 in
  1 = 1
  ∧ obtener_tarea 1 (actualizar_tarea 1 (cuerpo_completada true) s).1
    = ((actualizar_tarea 1 (cuerpo_completada true) s).1,
       (BTarea {| d_id := 1; d_texto := "a"; d_completada := Some true;
                  d_fecha_creacion := 0 |}, 200)).
Proof.
  apply (put_luego_get [PostTarea 0 (cuerpo "a")] 1 (cuerpo_completada true)
           {| d_id := 1; d_texto := "a"; d_completada := Some true;
              d_fecha_creacion := 0 |}).
  vm_compute. reflexivity.
Defined.

(** ** GET /api/tareas *)

Lemma ids_de_lista (l : list (Z * Tarea.t)) :
  Forall (fun kt : Z * Tarea.t => Tarea.id kt.2 = kt.1) l →
  d_id <$> (to_dict <$> l.*2) = l.*1.
Proof.
  induction 1 as [|[k t] l Hk _ IH]; [done|].
  rewrite !fmap_cons. simpl in *. by rewrite Hk, IH.
Qed.

(** X4: in every store reached from the empty one, GET /api/tareas is
    answered 200 with one dict per stored task: the list is as long as
    the store, no two of its dicts share an id, and a dict is in it
    exactly when a GET of its id is answered 200 with that dict.  The
    store is unchanged. *)
Theorem obtener_tareas_lista rs :
  ∃ l, obtener_tareas (run rs ∅).1 = ((run rs ∅).1, (BTareas l, 200))
       ∧ length l = size (run rs ∅).1
       ∧ NoDup (d_id <$> l)
       ∧ ∀ d, d ∈ l ↔ (obtener_tarea (d_id d) (run rs ∅).1).2 = (BTarea d, 200).
Proof.
  pose proof (id_es_clave_alcanzable rs) as Hclave.
  set (s := (run rs ∅).1) in *.
  exists (to_dict <$> (map_to_list s).*2). split_and!.
  - done.
  - by rewrite !length_fmap, length_map_to_list.
  - rewrite ids_de_lista; [apply NoDup_fst_map_to_list|].
    apply Forall_forall. intros [k t] Hkt%elem_of_map_to_list. by apply Hclave.
  - intros d. rewrite list_elem_of_fmap. split.
    + intros (t & -> & Ht). apply list_elem_of_fmap in Ht as ([k t'] & -> & Hkt).
      apply elem_of_map_to_list in Hkt. simpl.
      rewrite (Hclave _ _ Hkt). unfold obtener_tarea. by rewrite Hkt.
    + unfold obtener_tarea. destruct (s !! d_id d) as [t|] eqn:Ht; simpl; [|done].
      intros [= <-]. exists t. split; [done|].
      apply list_elem_of_fmap. exists (Tarea.id t, t). split; [done|].
      by apply elem_of_map_to_list.
Qed.

(** ** What a request leaves alone *)

Lemma crear_tarea_viejas now datos (s : Store) j t :
  s !! j = Some t → (crear_tarea now datos s).1 !! j = Some t.
Proof.
  intros Hj.
  destruct (crear_tarea_cases now datos s)
    as [(msg & st & -> & _)|(m & x & c & _ & _ & _ & _ & ->)]; [done|].
  simpl. rewrite lookup_insert_ne; [done|].
  intros E. by rewrite <-E, next_rowid_fresh in Hj.
Qed.

Lemma actualizar_tarea_viejas id datos (s : Store) j t :
  s !! j = Some t →
  ∃ t', (actualizar_tarea id datos s).1 !! j = Some t'
        ∧ Tarea.id t' = Tarea.id t
        ∧ Tarea.fecha_creacion t' = Tarea.fecha_creacion t
        ∧ (j ≠ id → t' = t).
Proof.
  intros Hj. destruct (s !! id) as [tarea|] eqn:Hs.
  2:{ unfold actualizar_tarea. rewrite Hs. simpl. eauto. }
  destruct (actualizar_tarea_cases id datos s tarea Hs)
    as [[e ->]|(texto & completada & c & _ & _ & Hok)]; [simpl; eauto|].
  simpl in Hok. rewrite Hok. simpl. destruct (decide (id = j)) as [->|Hne].
  - rewrite lookup_insert_eq. rewrite Hs in Hj. injection Hj as ->.
    eexists. split_and!; done.
  - rewrite lookup_insert_ne by done. eauto.
Qed.

Lemma actualizar_tarea_dom id datos (s : Store) :
  dom (actualizar_tarea id datos s).1 = dom s.
Proof.
  destruct (s !! id) as [tarea|] eqn:Hs.
  2:{ unfold actualizar_tarea. by rewrite Hs. }
  destruct (actualizar_tarea_cases id datos s tarea Hs)
    as [[e ->]|(texto & completada & c & _ & _ & Hok)]; [done|].
  simpl in Hok. rewrite Hok. simpl. apply dom_insert_lookup_L. eauto.
Qed.

(** X5: a POST, whatever its body and its outcome, leaves every task
    that was stored before it stored and unchanged. *)
Theorem crear_tarea_conserva now datos (s : Store) j t :
  s !! j = Some t → (crear_tarea now datos s).1 !! j = Some t.
Proof. apply crear_tarea_viejas. Qed.

Lemma crear_tarea_conserva_witness :
  (crear_tarea 5 (cuerpo "b") {[ 1 := Tarea.mk 1 "a" (Some true) 0 ]}).1 !! 1
  = Some (Tarea.mk 1 "a" (Some true) 0).
Proof.
  apply (crear_tarea_conserva 5 (cuerpo "b")
           {[ 1 := Tarea.mk 1 "a" (Some true) 0 ]} 1).
  reflexivity.
Defined.

(** X6: a PUT, whatever its body and its outcome, neither adds nor
    removes an id; every stored task keeps its id and its
    fecha_creacion, and the tasks of the other ids are unchanged. *)
Theorem actualizar_tarea_marco id datos (s : Store) j t :
  s !! j = Some t →
  dom (actualizar_tarea id datos s).1 = dom s
  ∧ ∃ t', (actualizar_tarea id datos s).1 !! j = Some t'
          ∧ Tarea.id t' = Tarea.id t
          ∧ Tarea.fecha_creacion t' = Tarea.fecha_creacion t
          ∧ (j ≠ id → t' = t).
Proof.
  intros Hj. split; [apply actualizar_tarea_dom|by apply actualizar_tarea_viejas].
Qed.

Lemma actualizar_tarea_marco_witness :
  let s : Store := {[ 1 := Tarea.mk 1 "a" (Some false) 0 ]} in
  dom (actualizar_tarea 1 (cuerpo " b ") s).1 = dom s
  ∧ ∃ t', (actualizar_tarea 1 (cuerpo " b ") s).1 !! 1 = Some t'
          ∧ Tarea.id t' = 1
          ∧ Tarea.fecha_creacion t' = 0
          ∧ (1 ≠ 1 → t' = Tarea.mk 1 "a" (Some false) 0).
Proof.
  apply (actualizar_tarea_marco 1 (cuerpo " b ")
           {[ 1 := Tarea.mk 1 "a" (Some false) 0 ]} 1
           (Tarea.mk 1 "a" (Some false) 0)).
  reflexivity.
Defined.

(** X7: through any run that deletes nothing, a stored task stays stored
    under its id with the fecha_creacion it had: no request rewrites
    the creation time. *)
Theorem fecha_creacion_inmutable rs (s : Store) j t :
  Forall sin_delete rs →
  s !! j = Some t →
  ∃ t', (run rs s).1 !! j = Some t'
        ∧ Tarea.id t' = Tarea.id t
        ∧ Tarea.fecha_creacion t' = Tarea.fecha_creacion t.
Proof.
  revert s t. induction rs as [|r rs IH]; intros s t Hrs Hj; [simpl; eauto|].
  apply Forall_cons in Hrs as [Hr Hrs]. rewrite run_cons. cbn [fst].
  assert (∃ t1, (handle r s).1 !! j = Some t1
                ∧ Tarea.id t1 = Tarea.id t
                ∧ Tarea.fecha_creacion t1 = Tarea.fecha_creacion t)
    as (t1 & H1 & Hid & Hfecha).
  { destruct r as [|id|now datos|id datos|id|]; simpl; eauto.
    - unfold obtener_tarea. destruct (s !! id); simpl; eauto.
    - exists t. split; [by apply crear_tarea_viejas|done].
    - destruct (actualizar_tarea_viejas id datos s j t Hj) as (t' & ? & ? & ? & _).
      eauto.
    - done. }
  destruct (IH _ t1 Hrs H1) as (t' & H' & Hid' & Hfecha').
  exists t'. split_and!; [done|congruence|congruence].
Qed.

Lemma fecha_creacion_inmutable_witness :
  ∃ t', (run [PutTarea 1 (cuerpo "b"); PostTarea 9 (cuerpo "c");
              PutTarea 1 (cuerpo_completada true)]
           {[ 1 := Tarea.mk 1 "a" (Some false) 3 ]}).1 !! 1 = Some t'
        ∧ Tarea.id t' = 1
        ∧ Tarea.fecha_creacion t' = 3.
Proof.
  apply (fecha_creacion_inmutable
           [PutTarea 1 (cuerpo "b"); PostTarea 9 (cuerpo "c");
            PutTarea 1 (cuerpo_completada true)]
           {[ 1 := Tarea.mk 1 "a" (Some false) 3 ]} 1
           (Tarea.mk 1 "a" (Some false) 3)).
  - repeat constructor.
  - reflexivity.
Defined.

(** X8: a request answered with a status of 400 or more leaves the
    store exactly as it was: nothing is written on a validation error,
    a missing id or a raised exception. *)
Theorem error_deja_store r (s : Store) :
  400 ≤ (handle r s).2.2 → (handle r s).1 = s.
Proof.
  destruct r as [|id|now datos|id datos|id|]; simpl; try done.
  - unfold obtener_tarea. by destruct (s !! id).
  - destruct (crear_tarea_cases now datos s)
      as [(msg & st & -> & _)|(m & t & c & _ & _ & _ & _ & ->)]; [done|].
    simpl. lia.
  - destruct (s !! id) as [tarea|] eqn:Hs.
    2:{ unfold actualizar_tarea. by rewrite Hs. }
    destruct (actualizar_tarea_cases id datos s tarea Hs)
      as [[e ->]|(texto & completada & c & _ & _ & Hok)]; [done|].
    simpl in Hok. rewrite Hok. simpl. lia.
  - unfold eliminar_tarea. destruct (s !! id); simpl; [lia|done].
Qed.

Lemma error_deja_store_witness :
  (handle (PutTarea 1 (JObj {[ "texto" := JStr "b"; "completada" := JStr "si" ]}))
     {[ 1 := Tarea.mk 1 "a" (Some false) 0 ]}).1
  = {[ 1 := Tarea.mk 1 "a" (Some false) 0 ]}.
Proof.
  apply (error_deja_store
           (PutTarea 1 (JObj {[ "texto" := JStr "b"; "completada" := JStr "si" ]}))).
  vm_compute. intros H. discriminate H.
Defined.

(** ** PUT: the fields of the body *)

Lemma put_fields_objeto (m : gmap string json) (ot : option text) (ob : option bool) :
  m !! "texto" = JStr <$> ot →
  m !! "completada" = JBool <$> ob →
  put_fields (JObj m) = Ok (strip <$> ot, JBool <$> ob).
Proof.
  intros Ht Hc. unfold put_fields. simpl. rewrite Ht, Hc.
  destruct ot as [t|], ob as [b|]; simpl;
    repeat (first [ rewrite bool_decide_true by eauto
                  | rewrite bool_decide_false by (by intros [? ?]) ]; simpl);
    done.
Qed.

(** X9: a PUT on a stored task whose body is an object with 'texto'
    absent or a string and 'completada' absent or a boolean.  When the
    text has no lone surrogate, or is absent, the PUT is answered 200
    with the updated task: texto is the given text stripped when given,
    completada the given boolean when given, each kept when absent, id
    and fecha_creacion kept; the row is replaced by it.  When the text
    has a lone surrogate the driver cannot encode it: the PUT is
    answered 500 with the message of the UnicodeEncodeError and the
    store is unchanged. *)
Theorem actualizar_tarea_campos id (m : gmap string json)
    (ot : option text) (ob : option bool) tarea (s : Store) :
  s !! id = Some tarea →
  m !! "texto" = JStr <$> ot →
  m !! "completada" = JBool <$> ob →
  actualizar_tarea id (JObj m) s =
    let exito texto :=
      let tarea' :=
        Tarea.mk (Tarea.id tarea) texto
                 (default (Tarea.completada tarea) (Some <$> ob))
                 (Tarea.fecha_creacion tarea) in
      (<[id := tarea']> s, (BTarea (to_dict tarea'), 200)) in
    match ot with
    | None => exito (Tarea.texto tarea)
    | Some t =>
        if utf8_ok t then exito (strip t)
        else (s, (BError (ErrExc (UnicodeEncodeError (strip t))), 500))
    end.
Proof.
  intros Hs Ht Hc.
  rewrite (actualizar_tarea_unfold _ _ _ _ Hs), (put_fields_objeto m ot ob Ht Hc).
  simpl. unfold db_update, text_bind.
  destruct ot as [t|]; simpl.
  - rewrite utf8_ok_strip. by destruct ob, (utf8_ok t).
  - by destruct ob.
Qed.

Lemma actualizar_tarea_campos_witness :
  actualizar_tarea 1 (JObj {[ "texto" := JStr " b "; "completada" := JBool true ]})
    {[ 1 := Tarea.mk 1 "a" (Some false) 3 ]}
  = ({[ 1 := Tarea.mk 1 "b" (Some true) 3 ]},
     (BTarea (to_dict (Tarea.mk 1 "b" (Some true) 3)), 200)).
Proof.
  etrans.
  - apply (actualizar_tarea_campos 1
             {[ "texto" := JStr " b "; "completada" := JBool true ]}
             (Some (text_of_string " b ")) (Some true) (Tarea.mk 1 "a" (Some false) 3)
             {[ 1 := Tarea.mk 1 "a" (Some false) 3 ]}); reflexivity.
  - vm_compute. reflexivity.
Defined.

(** X10: a PUT on a stored task whose body is an object with neither
    'texto' nor 'completada' (the empty object, say) is answered 200
    with the task as it is stored, and the store is unchanged. *)
Theorem actualizar_tarea_sin_campos id (m : gmap string json) tarea (s : Store) :
  s !! id = Some tarea →
  m !! "texto" = None →
  m !! "completada" = None →
  actualizar_tarea id (JObj m) s = (s, (BTarea (to_dict tarea), 200)).
Proof.
  intros Hs Ht Hc.
  rewrite (actualizar_tarea_unfold _ _ _ _ Hs), (put_fields_objeto m None None Ht Hc).
  simpl. destruct tarea. simpl. by rewrite insert_id.
Qed.

Lemma actualizar_tarea_sin_campos_witness :
  actualizar_tarea 1 (JObj ∅) {[ 1 := Tarea.mk 1 "a" (Some false) 3 ]}
  = ({[ 1 := Tarea.mk 1 "a" (Some false) 3 ]},
     (BTarea (to_dict (Tarea.mk 1 "a" (Some false) 3)), 200)).
Proof.
  apply (actualizar_tarea_sin_campos 1 ∅ (Tarea.mk 1 "a" (Some false) 3)
           {[ 1 := Tarea.mk 1 "a" (Some false) 3 ]}); reflexivity.
Defined.

(** X11: a PUT on a stored task whose body binds 'texto' to a value
    that is not a string is answered 500 with the message of the
    AttributeError of [.strip()], whatever else the body holds, and the
    store is unchanged. *)
Theorem actualizar_tarea_texto_no_str_500 id (m : gmap string json) v tarea (s : Store) :
  s !! id = Some tarea →
  m !! "texto" = Some v →
  (∀ t, v ≠ JStr t) →
  actualizar_tarea id (JObj m) s
  = (s, (BError (ErrExc (AttributeError v "strip")), 500)).
Proof.
  intros Hs Hv Hns. unfold actualizar_tarea. rewrite Hs. simpl. rewrite Hv.
  rewrite (bool_decide_true (is_Some (Some v))) by eauto. simpl.
  destruct v; simpl; try done. by destruct (Hns s0).
Qed.

Lemma actualizar_tarea_texto_no_str_500_witness :
  actualizar_tarea 1 (JObj {[ "texto" := JInt 5 ]})
    {[ 1 := Tarea.mk 1 "a" (Some false) 3 ]}
  = ({[ 1 := Tarea.mk 1 "a" (Some false) 3 ]},
     (BError (ErrExc (AttributeError (JInt 5) "strip")), 500)).
Proof.
  apply (actualizar_tarea_texto_no_str_500 1 {[ "texto" := JInt 5 ]} (JInt 5)
           (Tarea.mk 1 "a" (Some false) 3)).
  - reflexivity.
  - reflexivity.
  - intros t H. discriminate H.
Defined.

(** X12: a PUT on a stored task whose body is null, a boolean or a
    number is answered 500 with the message of the TypeError of
    ['texto' in datos], and the store is unchanged. *)
Theorem actualizar_tarea_no_iterable_500 id datos tarea (s : Store) :
  s !! id = Some tarea →
  no_iterable datos →
  actualizar_tarea id datos s = (s, (BError (ErrExc (TypeError datos)), 500)).
Proof.
  intros Hs Hd. unfold actualizar_tarea. rewrite Hs.
  by destruct datos.
Qed.

Lemma actualizar_tarea_no_iterable_500_witness :
  actualizar_tarea 1 JNull {[ 1 := Tarea.mk 1 "a" (Some false) 3 ]}
  = ({[ 1 := Tarea.mk 1 "a" (Some false) 3 ]},
     (BError (ErrExc (TypeError JNull)), 500)).
Proof.
  apply (actualizar_tarea_no_iterable_500 1 JNull (Tarea.mk 1 "a" (Some false) 3)).
  - reflexivity.
  - exact I.
Defined.

(** ** POST: bodies that are not objects, and the flag *)

(** X13: a POST whose body is not an object never creates a task: the
    store is unchanged and the status is 400 or 500; it is 400 with
    "Falta el campo 'texto'" when the body is falsy (null, false, 0, the
    empty string, the empty list), and 500 with the message of the
    TypeError when it is true or a number other than 0. *)
Theorem crear_tarea_no_objeto now datos (s : Store) :
  (∀ m, datos ≠ JObj m) →
  (crear_tarea now datos s).1 = s
  ∧ ((crear_tarea now datos s).2.2 = 400 ∨ (crear_tarea now datos s).2.2 = 500)
  ∧ (py_truthy datos = false →
     (crear_tarea now datos s).2 = (BError FaltaTexto, 400))
  ∧ (py_truthy datos = true → no_iterable datos →
     (crear_tarea now datos s).2 = (BError (ErrExc (TypeError datos)), 500)).
Proof.
  intros Hno. split_and!.
  - destruct (crear_tarea_cases now datos s)
      as [(msg & st & -> & _)|(m & t & c & -> & _)]; [done|by destruct (Hno m)].
  - destruct (crear_tarea_cases now datos s)
      as [(msg & st & -> & Hst)|(m & t & c & -> & _)]; [done|by destruct (Hno m)].
  - intros Hf. unfold crear_tarea. by rewrite Hf.
  - intros Ht Hd. unfold crear_tarea. rewrite Ht. by destruct datos.
Qed.

Lemma crear_tarea_no_objeto_witness :
  (crear_tarea 0 (JArr []) ∅).1 = ∅
  ∧ ((crear_tarea 0 (JArr []) ∅).2.2 = 400 ∨ (crear_tarea 0 (JArr []) ∅).2.2 = 500)
  ∧ (py_truthy (JArr []) = false →
     (crear_tarea 0 (JArr []) ∅).2 = (BError FaltaTexto, 400))
  ∧ (py_truthy (JArr []) = true → no_iterable (JArr []) →
     (crear_tarea 0 (JArr []) ∅).2 = (BError (ErrExc (TypeError (JArr []))), 500)).
Proof.
  apply (crear_tarea_no_objeto 0 (JArr []) ∅).
  intros m H. discriminate H.
Defined.

(** X14: a POST whose 'texto' is a non-blank string and whose
    'completada' is a boolean.  When the text has no lone surrogate the
    POST is answered 201 with the next id, the stripped text, that
    boolean as completada and the time of the request, and the task is
    stored: a task can be created already completed.  When the text has
    a lone surrogate the driver cannot encode it: the POST is answered
    500 with the message of the UnicodeEncodeError and the store is
    unchanged. *)
Theorem crear_tarea_completada now (m : gmap string json) t b (s : Store) :
  m !! "texto" = Some (JStr t) →
  strip t ≠ "" →
  m !! "completada" = Some (JBool b) →
  crear_tarea now (JObj m) s =
    if utf8_ok t
    then let nueva := Tarea.mk (next_rowid s) (strip t) (Some b) now in
         (<[next_rowid s := nueva]> s, (BTarea (to_dict nueva), 201))
    else (s, (BError (ErrExc (UnicodeEncodeError (strip t))), 500)).
Proof.
  intros Ht Hne Hc. unfold crear_tarea.
  rewrite (truthy_obj m _ _ Ht). simpl.
  rewrite Ht. rewrite bool_decide_true by eauto. simpl.
  rewrite (vacio_false _ Hne), Hc. simpl.
  unfold db_insert, text_bind. simpl. rewrite utf8_ok_strip.
  by destruct (utf8_ok t).
Qed.

Lemma crear_tarea_completada_witness :
  crear_tarea 4 (JObj {[ "texto" := JStr "a"; "completada" := JBool true ]}) ∅
  = ({[ 1 := Tarea.mk 1 "a" (Some true) 4 ]},
     (BTarea (to_dict (Tarea.mk 1 "a" (Some true) 4)), 201)).
Proof.
  etrans.
  - apply (crear_tarea_completada 4
             {[ "texto" := JStr "a"; "completada" := JBool true ]} "a" true ∅).
    + reflexivity.
    + vm_compute. intros H. discriminate H.
    + reflexivity.
  - vm_compute. reflexivity.
Defined.

(** ** DELETE twice *)

(** X15: a second DELETE of the same id, served right after a DELETE
    that was answered 200, is answered 404 and changes nothing. *)
Theorem eliminar_dos_veces id tarea (s : Store) :
  s !! id = Some tarea →
  eliminar_tarea id (eliminar_tarea id s).1
  = ((eliminar_tarea id s).1, (BError NoEncontrada, 404)).
Proof.
  intros Hs. unfold eliminar_tarea at 2 3. rewrite Hs. simpl.
  unfold eliminar_tarea. by rewrite lookup_delete_eq.
Qed.

Lemma eliminar_dos_veces_witness :
  eliminar_tarea 1 (eliminar_tarea 1 {[ 1 := Tarea.mk 1 "a" (Some false) 3 ]}).1
  = ((eliminar_tarea 1 {[ 1 := Tarea.mk 1 "a" (Some false) 3 ]}).1,
     (BError NoEncontrada, 404)).
Proof.
  apply (eliminar_dos_veces 1 (Tarea.mk 1 "a" (Some false) 3)).
  reflexivity.
Defined.

(** ** Statistics: the pending tasks *)

Lemma size_filter_complemento (P : Z * Tarea.t → Prop) `{!∀ x, Decision (P x)}
    (s : Store) :
  (size (filter P s) + size (filter (fun x => ¬ P x) s) = size s)%nat.
Proof.
  rewrite !size_filter_map_to_list, <-length_app, <-length_map_to_list.
  by rewrite filter_app_complement.
Qed.

(** X16: GET /api/estadisticas leaves the store unchanged and answers
    with numbers that are never negative and add up: completadas is at
    most total, and pendientes is the number of stored tasks whose
    completada is not true, be it false or NULL. *)
Theorem estadisticas_particion (s : Store) :
  ∃ total completadas pendientes,
    obtener_estadisticas s = (s, (BStats total completadas pendientes, 200))
    ∧ 0 ≤ completadas ≤ total
    ∧ pendientes
      = Z.of_nat (size (filter (fun kt : Z * Tarea.t => ¬ es_completada kt.2) s))
    ∧ completadas + pendientes = total.
Proof.
  do 3 eexists. split; [reflexivity|].
  pose proof (size_filter_complemento (fun kt : Z * Tarea.t => es_completada kt.2) s)
    as Hsum.
  cbv beta in Hsum. split_and!; lia.
Qed.

(** ** Counting the tasks of a run *)

Lemma deleted_count_cons resp resps :
  deleted_count (resp :: resps) = (deleted_count [resp] + deleted_count resps)%nat.
Proof.
  destruct resp as [[d| | | |] st]; try done.
  simpl. destruct st as [|p|p]; try done.
  do 8 (destruct p as [p|p|]; try done).
Qed.

Lemma handle_balance r (s : Store) :
  (size (handle r s).1 + deleted_count [(handle r s).2]
   = size s + length (created_ids [(handle r s).2]))%nat.
Proof.
  destruct r as [|id|now datos|id datos|id|]; simpl; try lia.
  - unfold obtener_tarea. destruct (s !! id); simpl; lia.
  - destruct (crear_tarea_cases now datos s)
      as [(msg & st & -> & _)|(m & t & c & _ & _ & _ & _ & ->)]; simpl; [lia|].
    rewrite map_size_insert_None by apply next_rowid_fresh. lia.
  - destruct (s !! id) as [tarea|] eqn:Hs.
    2:{ unfold actualizar_tarea. rewrite Hs. simpl. lia. }
    destruct (actualizar_tarea_cases id datos s tarea Hs)
      as [[e ->]|(texto & completada & c & _ & _ & Hok)]; [simpl; lia|].
    simpl in Hok. rewrite Hok. simpl.
    rewrite map_size_insert_Some by eauto. lia.
  - unfold eliminar_tarea. destruct (s !! id) as [tarea|] eqn:Hs; simpl; [|lia].
    rewrite map_size_delete, Hs.
    assert (size s ≠ 0%nat) by (eapply map_size_ne_0_lookup_2; eauto).
    destruct (size s); simpl; [done|lia].
Qed.

(** X17: along any run, the number of stored tasks grows by the number
    of 201 responses and shrinks by the number of confirmed deletions;
    from the empty store it is the one minus the other. *)
Theorem balance_de_tareas rs (s : Store) :
  (size (run rs s).1 + deleted_count (run rs s).2
   = size s + length (created_ids (run rs s).2))%nat.
Proof.
  revert s. induction rs as [|r rs IH]; intros s; [simpl; lia|].
  rewrite run_cons. cbn [fst snd].
  rewrite created_ids_cons, deleted_count_cons, length_app.
  pose proof (handle_balance r s). pose proof (IH (handle r s).1). lia.
Qed.

(** ** Which ids a run hands out *)

Lemma handle_ids_hasta r n (s : Store) :
  sin_delete r →
  ids_hasta n s →
  (created_ids [(handle r s).2] = [] ∧ ids_hasta n (handle r s).1)
  ∨ (created_ids [(handle r s).2] = [Z.of_nat n + 1] ∧ ids_hasta (S n) (handle r s).1).
Proof.
  intros Hr Hn. destruct r as [|id|now datos|id datos|id|]; simpl; try done.
  - by left.
  - unfold obtener_tarea. destruct (s !! id); by left.
  - destruct (crear_tarea_cases now datos s)
      as [(msg & st & -> & _)|(m & t & c & _ & _ & _ & _ & ->)]; [by left|].
    right. simpl. rewrite (next_rowid_hasta n s Hn). split; [done|].
    intros i. rewrite lookup_insert_is_Some, (Hn i). split.
    + intros [<-|[_ ?]]; lia.
    + intros ?. destruct (decide (Z.of_nat n + 1 = i)); [by left|right].
      split; [done|lia].
  - left. split.
    + destruct (s !! id) as [tarea|] eqn:Hs.
      2:{ unfold actualizar_tarea. by rewrite Hs. }
      destruct (actualizar_tarea_cases id datos s tarea Hs)
        as [[e ->]|(texto & completada & c & _ & _ & Hok)]; [done|].
      simpl in Hok. by rewrite Hok.
    + intros i. rewrite <-(Hn i), <-!elem_of_dom. by rewrite actualizar_tarea_dom.
  - by left.
Qed.

Lemma created_ids_desde rs n (s : Store) :
  Forall sin_delete rs →
  ids_hasta n s →
  created_ids (run rs s).2
  = seqZ (Z.of_nat n + 1) (Z.of_nat (length (created_ids (run rs s).2))).
Proof.
  revert n s. induction rs as [|r rs IH]; intros n s Hrs Hn; [done|].
  apply Forall_cons in Hrs as [Hr Hrs]. rewrite run_cons. cbn [fst snd].
  rewrite created_ids_cons.
  destruct (handle_ids_hasta r n s Hr Hn) as [[-> Hn']|[-> Hn']].
  - simpl. by apply IH.
  - rewrite length_app. simpl length.
    rewrite seqZ_cons by lia. simpl. f_equal.
    rewrite (IH (S n) _ Hrs Hn') at 1. f_equal; lia.
Qed.

(** X18: in a run from the empty store that deletes nothing, the ids of
    the 201 responses are 1, 2, 3, ... in this order: the k-th task
    created gets the id k. *)
Theorem ids_consecutivos rs :
  Forall sin_delete rs →
  created_ids (run rs ∅).2
  = seqZ 1 (Z.of_nat (length (created_ids (run rs ∅).2))).
Proof.
  intros Hrs. apply (created_ids_desde rs 0 ∅ Hrs).
  intros i. rewrite lookup_empty. split; [by intros [? ?]|simpl; lia].
Qed.

Lemma ids_consecutivos_witness :
  created_ids (run [PostTarea 0 (cuerpo "a"); PostTarea 1 (cuerpo " ");
                    PutTarea 1 (cuerpo "b"); PostTarea 2 (cuerpo "c")] ∅).2
  = seqZ 1 (Z.of_nat (length (created_ids
      (run [PostTarea 0 (cuerpo "a"); PostTarea 1 (cuerpo " ");
            PutTarea 1 (cuerpo "b"); PostTarea 2 (cuerpo "c")] ∅).2))).
Proof.
  apply (ids_consecutivos [PostTarea 0 (cuerpo "a"); PostTarea 1 (cuerpo " ");
                           PutTarea 1 (cuerpo "b"); PostTarea 2 (cuerpo "c")]).
  repeat constructor.
Defined.

Lemma crear_tarea_respuesta now datos (s1 s2 : Store) :
  next_rowid s1 = next_rowid s2 →
  (crear_tarea now datos s1).2 = (crear_tarea now datos s2).2.
Proof.
  intros Hn. unfold crear_tarea.
  destruct (py_truthy datos); simpl; [|done].
  destruct (py_contains "texto" datos) as [[]|]; simpl; try done.
  destruct (py_getitem datos "texto") as [v|]; simpl; try done.
  destruct (py_strip v) as [x|]; simpl; try done.
  destruct (vacio x); try done.
  destruct (py_get datos "completada" (JBool false)) as [w|]; simpl; try done.
  unfold db_insert. destruct (boolean_bind w); simpl; try done.
  destruct (text_bind x); simpl; try done.
  by rewrite Hn.
Qed.

(** X19: deleting a task that is not the one with the greatest id frees
    no id: the POST served after the DELETE is answered exactly as it
    would have been without it, with the same new id. *)
Theorem eliminar_no_mayor_no_libera_id j k t u now datos (s : Store) :
  s !! j = Some t →
  s !! k = Some u →
  j < k →
  (crear_tarea now datos (eliminar_tarea j s).1).2 = (crear_tarea now datos s).2.
Proof.
  intros Hj Hk Hjk. apply crear_tarea_respuesta.
  unfold eliminar_tarea. rewrite Hj. simpl.
  pose proof (max_rowid_spec s) as H. destruct (max_rowid s) as [m|] eqn:Hm.
  2:{ subst s. by rewrite lookup_empty in Hj. }
  destruct H as [Hin Hle].
  assert (k ≤ m) by (apply Hle; eauto).
  rewrite (next_rowid_mayor s m Hin Hle).
  apply next_rowid_mayor.
  - rewrite lookup_delete_ne by lia. done.
  - intros i [x Hi]. apply lookup_delete_Some in Hi as [_ Hi]. apply Hle. eauto.
Qed.

Lemma eliminar_no_mayor_no_libera_id_witness :
  let s : Store := {[ 1 := Tarea.mk 1 "a" (Some false) 0;
                      2 := Tarea.mk 2 "b" (Some false) 1 ]} in
  (crear_tarea 5 (cuerpo "c") (eliminar_tarea 1 s).1).2
  = (crear_tarea 5 (cuerpo "c") s).2.
Proof.
  apply (eliminar_no_mayor_no_libera_id 1 2 (Tarea.mk 1 "a" (Some false) 0)
           (Tarea.mk 2 "b" (Some false) 1)).
  - reflexivity.
  - reflexivity.
  - lia.
Defined.

(** X20: in a store reached from the empty one, after the task with the
    greatest id is deleted the next created task gets that id again or
    a smaller one. *)
Theorem eliminar_mayor_libera_id rs j t now datos d :
  let s := (run rs ∅).1 in
  s !! j = Some t →
  (∀ i, is_Some (s !! i) → i ≤ j) →
  (crear_tarea now datos (eliminar_tarea j s).1).2 = (BTarea d, 201) →
  d_id d ≤ j.
Proof.
  intros s Hj Hle Hresp.
  assert (0 < j) as Hpos by (apply (ids_positivos_alcanzable rs); fold s; eauto).
  unfold eliminar_tarea in Hresp. rewrite Hj in Hresp. simpl in Hresp.
  assert (d_id d = next_rowid (delete j s)) as ->.
  { destruct (crear_tarea_cases now datos (delete j s))
      as [(msg & st & E & _)|(m & x & c & _ & _ & _ & _ & E)];
      rewrite E in Hresp; simpl in Hresp; [done|].
    by injection Hresp as <-. }
  unfold next_rowid. pose proof (max_rowid_spec (delete j s)) as H.
  destruct (max_rowid (delete j s)) as [m|]; [|lia].
  destruct H as [[x Hm] _]. apply lookup_delete_Some in Hm as [Hne Hm].
  assert (m ≤ j) by (apply Hle; eauto). lia.
Qed.

Lemma eliminar_mayor_libera_id_witness :
  d_id {| d_id := 2; d_texto := "c"; d_completada := Some false;
          d_fecha_creacion := 5 |} ≤ 2.
Proof.
  apply (eliminar_mayor_libera_id
           [PostTarea 0 (cuerpo "a"); PostTarea 1 (cuerpo "b")] 2
           (Tarea.mk 2 "b" (Some false) 1) 5 (cuerpo "c")).
  - vm_compute. reflexivity.
  - intros i Hi.
    destruct (decide (i ≤ 2)) as [|Hgt]; [done|].
    assert (i < next_rowid (run [PostTarea 0 (cuerpo "a"); PostTarea 1 (cuerpo "b")] ∅).1)
      as Hlt by (by apply next_rowid_gt).
    vm_compute in Hlt. vm_compute in Hgt. destruct i; try done.
    destruct p as [p|p|]; try done; destruct p; done.
  - vm_compute. reflexivity.
Defined.

(** ** PUTs of different tasks *)

Lemma actualizar_tarea_store id datos (s : Store) :
  (actualizar_tarea id datos s).1
  = match s !! id with
    | Some tarea =>
        match fila_actualizada datos tarea with
        | Some tarea' => <[id := tarea']> s
        | None => s
        end
    | None => s
    end.
Proof.
  destruct (s !! id) as [tarea|] eqn:Hs.
  2:{ unfold actualizar_tarea. by rewrite Hs. }
  rewrite (actualizar_tarea_unfold _ _ _ _ Hs). unfold fila_actualizada.
  destruct (put_fields datos) as [[texto completada]|e]; simpl; [|done].
  unfold db_update.
  destruct (match completada with
            | None => Ok (Tarea.completada tarea)
            | Some v => boolean_bind v
            end); simpl; [|done].
  by destruct (match texto with
               | None => Ok (Tarea.texto tarea)
               | Some x => text_bind x
               end).
Qed.

(** X21: two PUTs on different ids commute: served in either order they
    leave the same store, whatever their bodies and outcomes. *)
Theorem actualizar_tarea_conmutan id1 id2 datos1 datos2 (s : Store) :
  id1 ≠ id2 →
  (actualizar_tarea id2 datos2 (actualizar_tarea id1 datos1 s).1).1
  = (actualizar_tarea id1 datos1 (actualizar_tarea id2 datos2 s).1).1.
Proof.
  intros Hne.
  rewrite (actualizar_tarea_store id1 datos1 s), (actualizar_tarea_store id2 datos2 s).
  destruct (s !! id1) as [t1|] eqn:H1, (s !! id2) as [t2|] eqn:H2;
    try destruct (fila_actualizada datos1 t1) as [t1'|] eqn:F1;
    try destruct (fila_actualizada datos2 t2) as [t2'|] eqn:F2;
    rewrite !actualizar_tarea_store;
    rewrite ?lookup_insert_ne by done;
    rewrite ?H1, ?H2, ?F1, ?F2; try done.
  by apply insert_insert_ne.
Qed.

Lemma actualizar_tarea_conmutan_witness :
  let s : Store := {[ 1 := Tarea.mk 1 "a" (Some false) 0;
                      2 := Tarea.mk 2 "b" (Some false) 1 ]} in
  (actualizar_tarea 2 (cuerpo "c") (actualizar_tarea 1 (cuerpo_completada true) s).1).1
  = (actualizar_tarea 1 (cuerpo_completada true) (actualizar_tarea 2 (cuerpo "c") s).1).1.
Proof.
  apply (actualizar_tarea_conmutan 1 2 (cuerpo_completada true) (cuerpo "c")). lia.
Defined.

(** ** The texto of the stored tasks, without blank PUTs *)

Lemma texto_no_vacio_handle r (s : Store) :
  ¬ put_en_blanco r → texto_no_vacio s → texto_no_vacio (handle r s).1.
Proof.
  intros Hr Hs. destruct r as [|id|now datos|id datos|id|]; simpl; try done.
  - unfold obtener_tarea. by destruct (s !! id).
  - by apply texto_no_vacio_crear.
  - destruct (s !! id) as [tarea|] eqn:Hid.
    2:{ unfold actualizar_tarea. by rewrite Hid. }
    destruct (actualizar_tarea_cases id datos s tarea Hid)
      as [[e ->]|(texto & completada & c & Hf & _ & Hok)]; [done|].
    simpl in Hok. rewrite Hok. simpl. intros i x. rewrite lookup_insert_Some.
    intros [[_ <-]|[_ Hi]]; [|by eapply Hs]. simpl.
    destruct texto as [y|]; simpl; [|by eapply Hs].
    apply put_fields_texto in Hf as (m & t & -> & Ht & ->).
    rewrite strip_idempotente. intros Hblank. apply Hr. simpl. by rewrite Ht.
  - by apply texto_no_vacio_eliminar.
Qed.

(** X22: in a run from the empty store in which no PUT carries a blank
    string as 'texto', every stored task has a texto that is non-empty,
    also after stripping: the blank PUT is the only way to store an
    empty text. *)
Theorem texto_no_vacio_sin_put_en_blanco rs i t :
  Forall (fun r => ¬ put_en_blanco r) rs →
  (run rs ∅).1 !! i = Some t →
  strip (Tarea.texto t) ≠ "" ∧ Tarea.texto t ≠ "".
Proof.
  intros Hrs Hi.
  assert (∀ s : Store, texto_no_vacio s → texto_no_vacio (run rs s).1) as Hrun.
  { clear Hi. induction rs as [|r rs IH]; intros s Hs; [done|].
    apply Forall_cons in Hrs as [Hr Hrs]. rewrite run_cons. cbn [fst].
    apply IH; [done|]. by apply texto_no_vacio_handle. }
  assert (strip (Tarea.texto t) ≠ "") as Hne.
  { apply (Hrun ∅) with i; [|done]. intros j x. by rewrite lookup_empty. }
  split; [done|]. intros E. by rewrite E in Hne.
Qed.

Lemma texto_no_vacio_sin_put_en_blanco_witness :
  strip (Tarea.texto (Tarea.mk 1 "b" (Some false) 0)) ≠ ""
  ∧ Tarea.texto (Tarea.mk 1 "b" (Some false) 0) ≠ "".
Proof.
  apply (texto_no_vacio_sin_put_en_blanco
           [PostTarea 0 (cuerpo "a"); PostTarea 1 (cuerpo "  ");
            PutTarea 1 (cuerpo " b ")] 1).
  - repeat constructor; vm_compute; intros H; try discriminate H; exact H.
  - vm_compute. reflexivity.
Defined.

(** ** POST then DELETE *)

(** X23: a DELETE of the id a 201 response announces, served right after
    the POST, is answered 200 and leaves the store exactly as it was
    before the POST. *)
Theorem crear_luego_eliminar now datos d (s : Store) :
  (crear_tarea now datos s).2 = (BTarea d, 201) →
  eliminar_tarea (d_id d) (crear_tarea now datos s).1 = (s, (BMensaje, 200)).
Proof.
  intros Hresp.
  destruct (crear_tarea_cases now datos s)
    as [(msg & st & E & _)|(m & t & c & _ & _ & _ & _ & E)];
    rewrite E in Hresp |- *; simpl in Hresp; [done|].
  injection Hresp as <-. simpl. unfold eliminar_tarea.
  rewrite lookup_insert_eq. by rewrite delete_insert_id by apply next_rowid_fresh.
Qed.

Lemma crear_luego_eliminar_witness :
  eliminar_tarea 2 (crear_tarea 7 (cuerpo "b") {[ 1 := Tarea.mk 1 "a" (Some true) 0 ]}).1
  = ({[ 1 := Tarea.mk 1 "a" (Some true) 0 ]}, (BMensaje, 200)).
Proof.
  apply (crear_luego_eliminar 7 (cuerpo "b")
           {| d_id := 2; d_texto := "b"; d_completada := Some false;
              d_fecha_creacion := 7 |}).
  vm_compute. reflexivity.
Defined.

(** ** PUT: bodies that are strings or lists *)

(** X24: a PUT on a stored task whose body is a string or a list, not an
    object.  When neither 'texto' nor 'completada' is found in it (as a
    substring, as an element) the PUT is answered 200 with the task as
    it is stored and changes nothing; when 'texto' is found in it the
    subscription raises and the PUT is answered 500 with the message of
    the TypeError, the store unchanged. *)
Theorem actualizar_tarea_cuerpo_no_objeto id datos tarea (s : Store) :
  s !! id = Some tarea →
  (∀ m, datos ≠ JObj m) →
  (py_contains "texto" datos = Ok false →
   py_contains "completada" datos = Ok false →
   actualizar_tarea id datos s = (s, (BTarea (to_dict tarea), 200)))
  ∧ (py_contains "texto" datos = Ok true →
     actualizar_tarea id datos s = (s, (BError (ErrExc (TypeError datos)), 500))).
Proof.
  intros Hs Hno. split.
  - intros Ht Hc. unfold actualizar_tarea. rewrite Hs, Ht. simpl. rewrite Hc. simpl.
    destruct tarea. simpl. by rewrite insert_id.
  - intros Ht. unfold actualizar_tarea. rewrite Hs, Ht. simpl.
    destruct datos as [| b | z | q | str | l | m]; try done.
    by destruct (Hno m).
Qed.

Lemma actualizar_tarea_cuerpo_no_objeto_witness :
  let s : Store := {[ 1 := Tarea.mk 1 "a" (Some false) 3 ]} in
  (py_contains "texto" (JStr "hola") = Ok false →
   py_contains "completada" (JStr "hola") = Ok false →
   actualizar_tarea 1 (JStr "hola") s
   = (s, (BTarea (to_dict (Tarea.mk 1 "a" (Some false) 3)), 200)))
  ∧ (py_contains "texto" (JStr "hola") = Ok true →
     actualizar_tarea 1 (JStr "hola") s
     = (s, (BError (ErrExc (TypeError (JStr "hola"))), 500))).
Proof.
  apply (actualizar_tarea_cuerpo_no_objeto 1 (JStr "hola")
           (Tarea.mk 1 "a" (Some false) 3)).
  - reflexivity.
  - intros m H. discriminate H.
Defined.
